(** * Bugathon tracker: the Jira sync service (lib/jira-sync)

    A shallow embedding of [JiraSyncService] and the properties of its
    ingestion-and-scoring engine.

    Modelling conventions.
    - JavaScript strings are byte strings ([string]); [toUpperCase] acts on
      the ASCII letters, which are the only letters of the marker it is used
      with.
    - JavaScript numbers are exact rationals ([Q]): no rounding, no NaN.
      Counters that the code only ever increments from 0 are [nat].  Where
      the rounding of the point sums matters, the aggregator is read once
      more over binary64 numbers (module [IEEE]).
    - [a || b] on a string or number is written out: the empty string and the
      number zero are falsy.
    - The persistence store and the ticket source are external: the store is
      a record of tables, every call to it either succeeds or answers with
      [{ data: null, error }] as scripted by the world, and every external
      call is recorded in a trace. *)

From Stdlib Require Import QArith Lqa Ascii String.
From Stdlib Require Import Floats.PrimFloat.
From stdpp Require Import gmap strings list fin_maps sorting pretty.
Close Scope Q_scope.

(** ** JavaScript string primitives *)

Module JS.

Definition upper_ascii (c : ascii) : ascii :=
  let n := nat_of_ascii c in
  if ((97 <=? n) && (n <=? 122))%nat then ascii_of_nat (n - 32) else c.

Definition lower_ascii (c : ascii) : ascii :=
  let n := nat_of_ascii c in
  if ((65 <=? n) && (n <=? 90))%nat then ascii_of_nat (n + 32) else c.

(** [s.toUpperCase()] *)
Fixpoint toUpperCase (s : string) : string :=
  match s with
  | EmptyString => EmptyString
  | String c s' => String (upper_ascii c) (toUpperCase s')
  end.

(** [s.toLowerCase()], the case folding the specification speaks of. *)
Fixpoint toLowerCase (s : string) : string :=
  match s with
  | EmptyString => EmptyString
  | String c s' => String (lower_ascii c) (toLowerCase s')
  end.

(** [s.includes(needle)] *)
Fixpoint includes (s needle : string) : bool :=
  String.prefix needle s ||
  match s with
  | EmptyString => false
  | String _ s' => includes s' needle
  end.

(** [s.split(sep)[0]]: the text before the first separator. *)
Fixpoint split_first (sep : ascii) (s : string) : string :=
  match s with
  | EmptyString => EmptyString
  | String c s' =>
      if Ascii.eqb c sep then EmptyString else String c (split_first sep s')
  end.

(** [s || d] on strings. *)
Definition str_or (s d : string) : string :=
  if String.eqb s "" then d else s.

(** [s || null] on strings. *)
Definition str_or_null (s : string) : option string :=
  if String.eqb s "" then None else Some s.

(** [x || d] on numbers. *)
Definition num_or (x d : Q) : Q :=
  if Qeq_bool x 0 then d else x.

End JS.

(** ** Data model *)

(** The raw ticket, [interface JiraTicket]. *)
Module Jira.

Record Identity := { accountId : string; displayName : string }.

Record StatusCategory := { category_key : string }.

Record Status := { status_name : string; statusCategory : StatusCategory }.

Record Named := { name : string }.

Record Fields := {
  summary : string;
  status : Status;
  reporter : Identity;
  assignee : option Identity;
  customfield_10312 : option Identity;
  customfield_10016 : option Q;
  created : string;
  resolutiondate : option string;
  priority : Named;
  issuetype : Named
}.

Record JiraTicket := { key : string; fields : Fields }.

End Jira.

(** A row of [bugathon_tickets], as built by [processTickets]. *)
Record Ticket := {
  key : string;
  summary : string;
  is_new_bug : bool;
  status : string;
  status_category : string;
  reporter_id : string;
  reporter_name : string;
  assignee_id : option string;
  assignee_name : string;
  sprint_points : Q;
  reporter_points : Q;
  assignee_points : Q;
  created_at : string;
  resolved_at : option string;
  priority : string;
  issue_type : string;
  last_updated : string
}.

(** ** The ticket normalizer: the callback of [tickets.map] in
    [processTickets].  [now] is the value of [new Date().toISOString()]. *)

Definition processTicket (now : string) (ticket : Jira.JiraTicket) : Ticket :=
  let f := Jira.fields ticket in
  let isNewBug :=
    JS.includes (JS.toUpperCase (Jira.summary f)) "[BUGATHON NEW]" in
  let sprintPoints :=
    match Jira.customfield_10016 f with
    | Some x => JS.num_or x 0%Q
    | None => 0%Q
    end in
  let isDone :=
    String.eqb (Jira.category_key (Jira.statusCategory (Jira.status f))) "done" in
  {| key := Jira.key ticket;
     summary := Jira.summary f;
     is_new_bug := isNewBug;
     status := Jira.status_name (Jira.status f);
     status_category := Jira.category_key (Jira.statusCategory (Jira.status f));
     reporter_id := Jira.accountId (Jira.reporter f);
     reporter_name := Jira.displayName (Jira.reporter f);
     assignee_id :=
       match Jira.assignee f with
       | Some a => JS.str_or_null (Jira.accountId a)
       | None => None
       end;
     assignee_name :=
       match Jira.assignee f with
       | Some a => JS.str_or (Jira.displayName a) "Unassigned"
       | None => "Unassigned"
       end;
     sprint_points := sprintPoints;
     reporter_points := if isNewBug then (sprintPoints * (1 # 2))%Q else 0%Q;
     assignee_points := if isDone then sprintPoints else 0%Q;
     created_at := Jira.created f;
     resolved_at :=
       match Jira.resolutiondate f with
       | Some d => JS.str_or_null d
       | None => None
       end;
     priority := Jira.name (Jira.priority f);
     issue_type := Jira.name (Jira.issuetype f);
     last_updated := now |}.

(** ** Rows of the derived tables *)

Module Score.

(** A row of [user_scores]: the accumulator object of [updateUserScores].
    [badges] and [updated_at] are undefined until the final pass. *)
Record UserScore := {
  user_name : string;
  bugs_reported : nat;
  bugs_fixed : nat;
  reporter_points : Q;
  assignee_points : Q;
  total_points : Q;
  badges : option (list string);
  updated_at : option string
}.

End Score.

Module Daily.

(** A row of [daily_stats]. *)
Record DailyStat := {
  date : string;
  bugs_created : nat;
  bugs_fixed : nat;
  points_earned : Q;
  active_users : nat
}.

End Daily.

Module Achievement.

(** A row of [achievements]. *)
Record Row := {
  user_name : string;
  badge_name : string;
  badge_icon : string;
  description : string;
  earned_at : string
}.

End Achievement.

(** ** The world: store, ticket source, clock *)

Inductive Error :=
| AxiosError (message : string)
| PostgrestError (message : string).

(** The external calls a run makes, in order. *)
Inductive Event :=
| JiraSearch
| Select (table : string)
| Upsert (table : string)
| Insert (table : string).

(** The four tables, and [timestamp_gte], the store's [gte] of a timestamp
    column against a literal. *)
Record Store := {
  bugathon_tickets : gmap string Ticket;
  user_scores : gmap string Score.UserScore;
  daily_stats : gmap string Daily.DailyStat;
  achievements : list Achievement.Row;
  timestamp_gte : string -> string -> bool
}.

(** [jira] is the answer of the ticket source; [faults] scripts the next
    store calls ([Some e]: the call fails with [e]; [None] or no entry: it
    succeeds); [clock] scripts the next readings of [new Date()]; [trace]
    records the external calls made so far. *)
Record World := {
  db : Store;
  jira : Error + list Jira.JiraTicket;
  faults : list (option Error);
  clock : list string;
  trace : list Event
}.

Definition with_db (st : Store) (w : World) : World :=
  {| db := st; jira := jira w; faults := faults w; clock := clock w;
     trace := trace w |}.

Definition with_faults (fs : list (option Error)) (w : World) : World :=
  {| db := db w; jira := jira w; faults := fs; clock := clock w;
     trace := trace w |}.

Definition with_clock (c : list string) (w : World) : World :=
  {| db := db w; jira := jira w; faults := faults w; clock := c;
     trace := trace w |}.

Definition log (ev : Event) (w : World) : World :=
  {| db := db w; jira := jira w; faults := faults w; clock := clock w;
     trace := trace w ++ [ev] |}.

(** ** Asynchronous computations: state and exceptions *)

Inductive Outcome (A : Type) :=
| Returned (a : A)
| Thrown (e : Error).
Arguments Returned {A} a.
Arguments Thrown {A} e.

Definition Async (A : Type) : Type := World -> Outcome A * World.

Definition ret {A} (a : A) : Async A := fun w => (Returned a, w).

Definition throw {A} (e : Error) : Async A := fun w => (Thrown e, w).

Definition bind {A B} (m : Async A) (k : A -> Async B) : Async B :=
  fun w =>
    match m w with
    | (Returned a, w') => k a w'
    | (Thrown e, w') => (Thrown e, w')
    end.

Definition try_catch {A} (body : Async A) (handler : Error -> Async A) : Async A :=
  fun w =>
    match body w with
    | (Returned a, w') => (Returned a, w')
    | (Thrown e, w') => handler e w'
    end.

Notation "x <- m ;; k" := (bind m (fun x => k))
  (at level 100, m at next level, right associativity).
Notation "m ;;; k" := (bind m (fun _ => k))
  (at level 100, right associativity).

Fixpoint mapM {A B} (f : A -> Async B) (l : list A) : Async (list B) :=
  match l with
  | [] => ret []
  | x :: l' => y <- f x ;; ys <- mapM f l' ;; ret (y :: ys)
  end.

(** [new Date().toISOString()] *)
Definition new_Date : Async string :=
  fun w =>
    (Returned (default "1970-01-01T00:00:00.000Z" (head (clock w))),
     with_clock (tail (clock w)) w).

(** The answer [{ data, error }] of a store call. *)
Record Response (A : Type) := { data : option A; error : option Error }.
Arguments data {A} _.
Arguments error {A} _.

(** One awaited call to the store.  It never throws: a failure is an answer
    with [data] null and [error] set, and leaves the store as it was. *)
Definition supabase {A} (ev : Event) (op : Store -> Response A * Store)
  : Async (Response A) :=
  fun w =>
    let w' := with_faults (tail (faults w)) (log ev w) in
    match head (faults w) with
    | Some (Some e) => (Returned {| data := None; error := Some e |}, w')
    | _ => let (r, st) := op (db w) in (Returned r, with_db st w')
    end.

(** ** Store operations used by the service *)

Module Table.

Definition set_tickets (t : gmap string Ticket) (st : Store) : Store :=
  {| bugathon_tickets := t; user_scores := user_scores st;
     daily_stats := daily_stats st; achievements := achievements st;
     timestamp_gte := timestamp_gte st |}.

Definition set_scores (t : gmap string Score.UserScore) (st : Store) : Store :=
  {| bugathon_tickets := bugathon_tickets st; user_scores := t;
     daily_stats := daily_stats st; achievements := achievements st;
     timestamp_gte := timestamp_gte st |}.

Definition set_daily (t : gmap string Daily.DailyStat) (st : Store) : Store :=
  {| bugathon_tickets := bugathon_tickets st; user_scores := user_scores st;
     daily_stats := t; achievements := achievements st;
     timestamp_gte := timestamp_gte st |}.

Definition set_achievements (t : list Achievement.Row) (st : Store) : Store :=
  {| bugathon_tickets := bugathon_tickets st; user_scores := user_scores st;
     daily_stats := daily_stats st; achievements := t;
     timestamp_gte := timestamp_gte st |}.

Definition ok {A} (d : option A) : Response A := {| data := d; error := None |}.

(** [upsert(rows, { onConflict })]: every row replaces the row with its
    key or is added.  The batches of the service hold one row per key; for a
    batch that repeats a key the later row is taken. *)
Definition upsert {V} (key_of : V -> string) (rows : list V)
    (t : gmap string V) : gmap string V :=
  foldl (fun t row => <[key_of row := row]> t) t rows.

Definition rows {V} (t : gmap string V) : list V := (map_to_list t).*2.

Definition upsert_tickets (batch : list Ticket) (st : Store)
  : Response unit * Store :=
  (ok None, set_tickets (upsert key batch (bugathon_tickets st)) st).

Definition upsert_scores (batch : list Score.UserScore) (st : Store)
  : Response unit * Store :=
  (ok None, set_scores (upsert Score.user_name batch (user_scores st)) st).

Definition upsert_daily (batch : list Daily.DailyStat) (st : Store)
  : Response unit * Store :=
  (ok None, set_daily (upsert Daily.date batch (daily_stats st)) st).

Definition created_since (st : Store) (today : string) (t : Ticket) : bool :=
  timestamp_gte st (created_at t) today.

Definition fixed_since (st : Store) (today : string) (t : Ticket) : bool :=
  String.eqb (status_category t) "done" &&
  match resolved_at t with
  | Some r => timestamp_gte st r today
  | None => false
  end.

(** [from("bugathon_tickets").select("*").gte("created_at", today)] *)
Definition select_created_since (today : string) (st : Store)
  : Response (list Ticket) * Store :=
  (ok (Some (filter (created_since st today) (rows (bugathon_tickets st)))), st).

(** [from("bugathon_tickets").select("*").eq("status_category", "done")
    .gte("resolved_at", today)]: a row without resolution date is not
    selected. *)
Definition select_fixed_since (today : string) (st : Store)
  : Response (list Ticket) * Store :=
  (ok (Some (filter (fixed_since st today) (rows (bugathon_tickets st)))), st).

(** [from("bugathon_tickets").select("*")].  The query asks for no order;
    the rows come here in the order of their keys.  What depends on the
    order of a read is stated over the list of rows read. *)
Definition select_all_tickets (st : Store) : Response (list Ticket) * Store :=
  (ok (Some (rows (bugathon_tickets st))), st).

Definition by_points_desc (a b : Score.UserScore) : Prop :=
  Is_true (Qle_bool (Score.total_points b) (Score.total_points a)).

(** [from("user_scores").select("*").order("total_points", { ascending: false })] *)
Definition select_scores_ordered (st : Store)
  : Response (list Score.UserScore) * Store :=
  (ok (Some (merge_sort by_points_desc (rows (user_scores st)))), st).

Definition matches (userName badge : string) (r : Achievement.Row) : bool :=
  String.eqb (Achievement.user_name r) userName &&
  String.eqb (Achievement.badge_name r) badge.

(** [.eq("user_name", u).eq("badge_name", b).single()]: the row when
    exactly one matches, otherwise no data and an error. *)
Definition select_achievement_single (userName badge : string) (st : Store)
  : Response Achievement.Row * Store :=
  match filter (fun r => Is_true (matches userName badge r)) (achievements st) with
  | [r] => (ok (Some r), st)
  | _ => ({| data := None; error := Some (PostgrestError "PGRST116") |}, st)
  end.

Definition insert_achievement (batch : list Achievement.Row) (st : Store)
  : Response unit * Store :=
  (ok None, set_achievements (achievements st ++ batch) st).

End Table.

(** ** The service *)

Inductive SyncResult :=
| Success (ticketsProcessed : nat)
| Failure (error : Error).

Definition fetchJiraTickets : Async (list Jira.JiraTicket) :=
  fun w =>
    match jira w with
    | inl e => (Thrown e, log JiraSearch w)
    | inr issues => (Returned issues, log JiraSearch w)
    end.

(** The normalizer with its reading of the clock. *)
Definition normalizeNow (ticket : Jira.JiraTicket) : Async Ticket :=
  now <- new_Date ;; ret (processTicket now ticket).

Definition processTickets (tickets : list Jira.JiraTicket) : Async unit :=
  processedTickets <- mapM normalizeNow tickets ;;
  r <- supabase (Upsert "bugathon_tickets") (Table.upsert_tickets processedTickets) ;;
  match error r with
  | Some e => throw e
  | None => ret tt
  end.

Definition fresh_score (name : string) : Score.UserScore :=
  {| Score.user_name := name; Score.bugs_reported := 0; Score.bugs_fixed := 0;
     Score.reporter_points := 0%Q; Score.assignee_points := 0%Q;
     Score.total_points := 0%Q; Score.badges := None; Score.updated_at := None |}.

(** [if (!userScores.has(name)) userScores.set(name, {...})] *)
Definition seed (name : string) (userScores : gmap string Score.UserScore)
  : gmap string Score.UserScore :=
  match userScores !! name with
  | Some _ => userScores
  | None => <[name := fresh_score name]> userScores
  end.

Definition add_reported (points : Q) (user : Score.UserScore) : Score.UserScore :=
  {| Score.user_name := Score.user_name user;
     Score.bugs_reported := S (Score.bugs_reported user);
     Score.bugs_fixed := Score.bugs_fixed user;
     Score.reporter_points := (Score.reporter_points user + points)%Q;
     Score.assignee_points := Score.assignee_points user;
     Score.total_points := Score.total_points user;
     Score.badges := Score.badges user; Score.updated_at := Score.updated_at user |}.

Definition add_fixed (points : Q) (user : Score.UserScore) : Score.UserScore :=
  {| Score.user_name := Score.user_name user;
     Score.bugs_reported := Score.bugs_reported user;
     Score.bugs_fixed := S (Score.bugs_fixed user);
     Score.reporter_points := Score.reporter_points user;
     Score.assignee_points := (Score.assignee_points user + points)%Q;
     Score.total_points := Score.total_points user;
     Score.badges := Score.badges user; Score.updated_at := Score.updated_at user |}.

(** The body of [tickets.forEach]. *)
Definition scoreTicket (userScores : gmap string Score.UserScore) (ticket : Ticket)
  : gmap string Score.UserScore :=
  let userScores :=
    if is_new_bug ticket && negb (String.eqb (reporter_name ticket) "") then
      alter (add_reported (reporter_points ticket)) (reporter_name ticket)
        (seed (reporter_name ticket) userScores)
    else userScores in
  if String.eqb (status_category ticket) "done"
     && negb (String.eqb (assignee_name ticket) "Unassigned") then
    alter (add_fixed (assignee_points ticket)) (assignee_name ticket)
      (seed (assignee_name ticket) userScores)
  else userScores.

Definition accumulate (tickets : list Ticket) : gmap string Score.UserScore :=
  foldl scoreTicket ∅ tickets.

Definition calculateBadges (user : Score.UserScore) : list string :=
  let badges := [] in
  let badges :=
    if (10 <=? Score.bugs_reported user)%nat then badges ++ ["üîç Bug Hunter Elite"]
    else if (5 <=? Score.bugs_reported user)%nat then badges ++ ["üîé Bug Hunter"]
    else badges in
  let badges :=
    if (10 <=? Score.bugs_fixed user)%nat then badges ++ ["‚öîÔ∏è Bug Slayer Supreme"]
    else if (5 <=? Score.bugs_fixed user)%nat then badges ++ ["üó°Ô∏è Bug Slayer"]
    else badges in
  let badges :=
    if Qle_bool 100 (Score.total_points user) then badges ++ ["üëë Point Master"]
    else if Qle_bool 50 (Score.total_points user) then badges ++ ["‚≠ê Rising Star"]
    else badges in
  let badges :=
    if (0 <? Score.bugs_reported user)%nat && (0 <? Score.bugs_fixed user)%nat
    then badges ++ ["üéØ All-Rounder"] else badges in
  let badges :=
    if (3 <=? Score.bugs_fixed user)%nat then badges ++ ["üöÄ Speed Demon"]
    else badges in
  if (0 <? length badges)%nat then badges else ["üå± Participant"].

(** The callback of the final [map]: totals, badges, time stamp. *)
Definition finalize (now : string) (user : Score.UserScore) : Score.UserScore :=
  let total := (Score.reporter_points user + Score.assignee_points user)%Q in
  let user :=
    {| Score.user_name := Score.user_name user;
       Score.bugs_reported := Score.bugs_reported user;
       Score.bugs_fixed := Score.bugs_fixed user;
       Score.reporter_points := Score.reporter_points user;
       Score.assignee_points := Score.assignee_points user;
       Score.total_points := total;
       Score.badges := Score.badges user; Score.updated_at := Score.updated_at user |} in
  {| Score.user_name := Score.user_name user;
     Score.bugs_reported := Score.bugs_reported user;
     Score.bugs_fixed := Score.bugs_fixed user;
     Score.reporter_points := Score.reporter_points user;
     Score.assignee_points := Score.assignee_points user;
     Score.total_points := Score.total_points user;
     Score.badges := Some (calculateBadges user);
     Score.updated_at := Some now |}.

Definition stampScore (user : Score.UserScore) : Async Score.UserScore :=
  now <- new_Date ;; ret (finalize now user).

(** [Array.from(userScores.values()).map(...)], for the tickets read.  The
    rows come in the order of their keys rather than of their insertion;
    this decides only which reading of the clock stamps which row. *)
Definition scoresArray (tickets : list Ticket) : Async (list Score.UserScore) :=
  mapM stampScore (Table.rows (accumulate tickets)).

Definition updateUserScores : Async unit :=
  r <- supabase (Select "bugathon_tickets") Table.select_all_tickets ;;
  match data r with
  | None => ret tt
  | Some tickets =>
      rows <- scoresArray tickets ;;
      supabase (Upsert "user_scores") (Table.upsert_scores rows) ;;;
      ret tt
  end.

(** The [stats] object of [updateDailyStats]. *)
Definition dailyStats (today : string) (todayTickets fixedToday : option (list Ticket))
  : Daily.DailyStat :=
  {| Daily.date := today;
     Daily.bugs_created :=
       match todayTickets with Some l => length l | None => 0 end;
     Daily.bugs_fixed :=
       match fixedToday with Some l => length l | None => 0 end;
     Daily.points_earned :=
       match fixedToday with
       | Some l => JS.num_or (foldl (fun sum t => (sum + assignee_points t)%Q) 0%Q l) 0%Q
       | None => 0%Q
       end;
     Daily.active_users :=
       size (list_to_set (C := gset string)
               (match todayTickets with Some l => map reporter_name l | None => [] end ++
                match fixedToday with Some l => map assignee_name l | None => [] end)) |}.

Definition updateDailyStats : Async unit :=
  now <- new_Date ;;
  let today := JS.split_first "T" now in
  todayTickets <-
    supabase (Select "bugathon_tickets") (Table.select_created_since today) ;;
  fixedToday <-
    supabase (Select "bugathon_tickets") (Table.select_fixed_since today) ;;
  supabase (Upsert "daily_stats")
    (Table.upsert_daily [dailyStats today (data todayTickets) (data fixedToday)]) ;;;
  ret tt.

Definition grantAchievement (userName badge description : string) : Async unit :=
  existing <-
    supabase (Select "achievements") (Table.select_achievement_single userName badge) ;;
  match data existing with
  | Some _ => ret tt
  | None =>
      now <- new_Date ;;
      supabase (Insert "achievements")
        (Table.insert_achievement
           [ {| Achievement.user_name := userName;
                Achievement.badge_name := badge;
                Achievement.badge_icon := JS.split_first " " badge;
                Achievement.description := description;
                Achievement.earned_at := now |} ]) ;;;
      ret tt
  end.

Definition checkAchievements : Async unit :=
  r <- supabase (Select "user_scores") Table.select_scores_ordered ;;
  match data r with
  | None => ret tt
  | Some users =>
      match users with
      | first :: _ =>
          grantAchievement (Score.user_name first) "üèÜ Current Champion"
            "Leading the bugathon!"
      | [] => ret tt
      end
  end.

Definition syncBugathonData : Async SyncResult :=
  try_catch
    (tickets <- fetchJiraTickets ;;
     processTickets tickets ;;;
     updateUserScores ;;;
     updateDailyStats ;;;
     checkAchievements ;;;
     ret (Success (length tickets)))
    (fun error => ret (Failure error)).

(** ** Specification-side notions and sample data *)

(** The badge labels of [calculateBadges] and [checkAchievements], by name. *)
Module Label.

Definition bug_hunter_elite : string := "üîç Bug Hunter Elite".
Definition bug_hunter : string := "üîé Bug Hunter".
Definition bug_slayer_supreme : string := "‚öîÔ∏è Bug Slayer Supreme".
Definition bug_slayer : string := "üó°Ô∏è Bug Slayer".
Definition point_master : string := "üëë Point Master".
Definition rising_star : string := "‚≠ê Rising Star".
Definition all_rounder : string := "üéØ All-Rounder".
Definition speed_demon : string := "üöÄ Speed Demon".
Definition participant : string := "üå± Participant".
Definition current_champion : string := "üèÜ Current Champion".

(** The labels in the order of their categories. *)
Definition in_category_order : list string :=
  [bug_hunter_elite; bug_hunter; bug_slayer_supreme; bug_slayer;
   point_master; rising_star; all_rounder; speed_demon; participant].

End Label.

(** The badge list as a function of the outcomes of the nine threshold tests
    of [calculateBadges]. *)
Definition badges_of_tests (r10 r5 f10 f5 p100 p50 r0 f0 f3 : bool) : list string :=
  let badges := [] in
  let badges :=
    if r10 then badges ++ [Label.bug_hunter_elite]
    else if r5 then badges ++ [Label.bug_hunter]
    else badges in
  let badges :=
    if f10 then badges ++ [Label.bug_slayer_supreme]
    else if f5 then badges ++ [Label.bug_slayer]
    else badges in
  let badges :=
    if p100 then badges ++ [Label.point_master]
    else if p50 then badges ++ [Label.rising_star]
    else badges in
  let badges := if r0 && f0 then badges ++ [Label.all_rounder] else badges in
  let badges := if f3 then badges ++ [Label.speed_demon] else badges in
  if (0 <? length badges)%nat then badges else [Label.participant].

(** The left-to-right sum that [+=] builds up from 0. *)
Definition sumQ (l : list Q) : Q := foldl Qplus 0%Q l.

(** The tests of [scoreTicket], for the user [u]: the ticket credits [u] as
    its reporter, as its assignee. *)
Definition credits_reporter (u : string) (t : Ticket) : bool :=
  is_new_bug t && negb (String.eqb (reporter_name t) "")
  && String.eqb (reporter_name t) u.

Definition credits_assignee (u : string) (t : Ticket) : bool :=
  String.eqb (status_category t) "done"
  && negb (String.eqb (assignee_name t) "Unassigned")
  && String.eqb (assignee_name t) u.

Definition credited (u : string) (tickets : list Ticket) : bool :=
  existsb (fun t => credits_reporter u t || credits_assignee u t) tickets.

(** The accumulator of [u] after a pass over [tickets]. *)
Definition tally (u : string) (tickets : list Ticket) : Score.UserScore :=
  {| Score.user_name := u;
     Score.bugs_reported := length (filter (credits_reporter u) tickets);
     Score.bugs_fixed := length (filter (credits_assignee u) tickets);
     Score.reporter_points :=
       sumQ (reporter_points <$> filter (credits_reporter u) tickets);
     Score.assignee_points :=
       sumQ (assignee_points <$> filter (credits_assignee u) tickets);
     Score.total_points := 0%Q;
     Score.badges := None; Score.updated_at := None |}.

(** Seeding on first encounter, then updating in place, seen from one key. *)
Definition credit (b : bool) (f : Score.UserScore -> Score.UserScore) (u : string)
    (o : option Score.UserScore) : option Score.UserScore :=
  if b then Some (f (default (fresh_score u) o)) else o.

(** The body of [syncBugathonData] over arbitrary steps: what the
    [try]/[catch] and the sequence of [await]s do, whatever the steps are. *)
Section Orchestration.

Variable fetch : Async (list Jira.JiraTicket).
Variable process : list Jira.JiraTicket -> Async unit.
Variables score daily achieve : Async unit.

Definition orchestrate : Async SyncResult :=
  try_catch
    (tickets <- fetch ;;
     process tickets ;;;
     score ;;;
     daily ;;;
     achieve ;;;
     ret (Success (length tickets)))
    (fun error => ret (Failure error)).

End Orchestration.

(** At most one achievement row per pair of user and badge. *)
Definition at_most_one_per_pair (rows : list Achievement.Row) : Prop :=
  forall userName badge, length (filter (Table.matches userName badge) rows) <= 1.

(** The next store call is answered, not failed. *)
Definition answered (w : World) : Prop :=
  forall e, head (faults w) <> Some (Some e).

(** The row [grantAchievement] inserts. *)
Definition granted (userName badge description now : string) : Achievement.Row :=
  {| Achievement.user_name := userName;
     Achievement.badge_name := badge;
     Achievement.badge_icon := JS.split_first " " badge;
     Achievement.description := description;
     Achievement.earned_at := now |}.

(** A ticket row as the normalizer writes it. *)
Definition NormalizedTicket (t : Ticket) : Prop :=
  exists now raw, t = processTicket now raw.

(** [u] is the (present) reporter of the new bug [t]. *)
Definition reporter_of_new_bug (u : string) (t : Ticket) : bool :=
  is_new_bug t && String.eqb (reporter_name t) u && negb (String.eqb u "").

(** [u] is the assignee, present and not the sentinel, of the done ticket [t]. *)
Definition done_assignee (u : string) (t : Ticket) : bool :=
  String.eqb (status_category t) "done" && String.eqb (assignee_name t) u
  && negb (String.eqb u "") && negb (String.eqb u "Unassigned").

(** The fields of a score that do not depend on the time of the run. *)
Definition score_core (s : Score.UserScore)
  : string * nat * nat * Q * Q * Q * option (list string) :=
  (Score.user_name s, Score.bugs_reported s, Score.bugs_fixed s,
   Score.reporter_points s, Score.assignee_points s, Score.total_points s,
   Score.badges s).

Module Sample.

Definition ident (n : string) : Jira.Identity :=
  {| Jira.accountId := "id-" +:+ n; Jira.displayName := n |}.

Definition raw (k s category rep : string) (asg : option string)
    (pts : option Q) (res : option string) : Jira.JiraTicket :=
  {| Jira.key := k;
     Jira.fields :=
       {| Jira.summary := s;
          Jira.status :=
            {| Jira.status_name := category;
               Jira.statusCategory := {| Jira.category_key := category |} |};
          Jira.reporter := ident rep;
          Jira.assignee := ident <$> asg;
          Jira.customfield_10312 := None;
          Jira.customfield_10016 := pts;
          Jira.created := "2024-05-01T08:00:00.000+0000";
          Jira.resolutiondate := res;
          Jira.priority := {| Jira.name := "High" |};
          Jira.issuetype := {| Jira.name := "Bug" |} |} |}.

(** The two tickets of the end-to-end scenario, and a bare one. *)
Definition ticketA : Jira.JiraTicket :=
  raw "BUG-1" "[Bugathon New] crash" "open" "alice" None (Some (5 # 1)%Q) None.

Definition ticketB : Jira.JiraTicket :=
  raw "BUG-2" "memory leak" "done" "carol" (Some "bob") (Some (8 # 1)%Q)
    (Some "2024-05-01T09:00:00.000+0000").

Definition ticketC : Jira.JiraTicket :=
  raw "BUG-3" "typo" "open" "carol" None None None.

(** A done ticket nobody is assigned to, and a new bug reported by a user
    whose display name is the sentinel. *)
Definition ticketD : Jira.JiraTicket :=
  raw "BUG-4" "typo" "done" "carol" None (Some (8 # 1)%Q)
    (Some "2024-05-01T09:30:00.000+0000").

Definition ticketE : Jira.JiraTicket :=
  raw "BUG-5" "[BUGATHON NEW] glitch" "done" "Unassigned" (Some "Unassigned")
    (Some (4 # 1)%Q) (Some "2024-05-01T09:45:00.000+0000").

Definition user_with (br bf : nat) (tp : Q) : Score.UserScore :=
  {| Score.user_name := "sam"; Score.bugs_reported := br; Score.bugs_fixed := bf;
     Score.reporter_points := 0%Q; Score.assignee_points := 0%Q;
     Score.total_points := tp; Score.badges := None; Score.updated_at := None |}.

(** A store that compares time stamps as text. *)
Definition text_gte (a b : string) : bool := String.leb b a.

Definition empty_store : Store :=
  {| bugathon_tickets := ∅; user_scores := ∅; daily_stats := ∅;
     achievements := []; timestamp_gte := text_gte |}.

Definition world (st : Store) (source : Error + list Jira.JiraTicket)
    (fs : list (option Error)) (c : list string) : World :=
  {| db := st; jira := source; faults := fs; clock := c; trace := [] |}.

Definition boom : Error := PostgrestError "connection refused".

(** A store holding the two scenario tickets and a score of an earlier
    run for a user who is in neither. *)
Definition store1 : Store :=
  {| bugathon_tickets :=
       Table.upsert key
         [processTicket "2024-05-01T07:00:00.000Z" ticketA;
          processTicket "2024-05-01T07:00:00.000Z" ticketB] ∅;
     user_scores :=
       {[ "zoe" := finalize "2024-04-30T07:00:00.000Z" (user_with 3 4 20) ]};
     daily_stats := ∅;
     achievements := [];
     timestamp_gte := text_gte |}.

End Sample.

(** The summary contains [marker] up to the case of its letters. *)
Definition contains_ignoring_case (s marker : string) : Prop :=
  exists pre mid post,
    s = pre +:+ mid +:+ post /\ JS.toLowerCase mid = JS.toLowerCase marker.

(** ** Further notions: measures of the tables, the routes, the dashboard *)

(** A ticket row with its write time stamp blanked. *)
Definition without_last_updated (t : Ticket) : Ticket :=
  {| key := key t; summary := summary t; is_new_bug := is_new_bug t;
     status := status t; status_category := status_category t;
     reporter_id := reporter_id t; reporter_name := reporter_name t;
     assignee_id := assignee_id t; assignee_name := assignee_name t;
     sprint_points := sprint_points t; reporter_points := reporter_points t;
     assignee_points := assignee_points t; created_at := created_at t;
     resolved_at := resolved_at t; priority := priority t;
     issue_type := issue_type t; last_updated := "" |}.

(** No key of a keyed table is lost and the achievements only grow at their
    end. *)
Definition grows (st st' : Store) : Prop :=
  dom (bugathon_tickets st) ⊆ dom (bugathon_tickets st')
  /\ dom (user_scores st) ⊆ dom (user_scores st')
  /\ dom (daily_stats st) ⊆ dom (daily_stats st')
  /\ achievements st `prefix_of` achievements st'.

(** The tests of [scoreTicket] without the user: the ticket is counted as a
    reported bug, as a fixed bug. *)
Definition counts_as_reported (t : Ticket) : bool :=
  is_new_bug t && negb (String.eqb (reporter_name t) "").

Definition counts_as_fixed (t : Ticket) : bool :=
  String.eqb (status_category t) "done"
  && negb (String.eqb (assignee_name t) "Unassigned").

(** The sum of a counter over the accumulators of a map. *)
Definition total_of (g : Score.UserScore -> nat) (m : gmap string Score.UserScore) : nat :=
  sum_list_with g (Table.rows m).

(** The route handlers, app/api/sync and app/api/stats.  [NextResponse.json]
    answers with status 200 unless another is given. *)
Module Route.

Record JsonResponse (B : Type) := { status : nat; body : B }.
Arguments status {B} _.
Arguments body {B} _.

Definition json {B} (b : B) : JsonResponse B := {| status := 200; body := b |}.

Inductive SyncBody :=
| SyncAnswer (result : SyncResult)
| SyncCrash (error : string) (details : Error).

(** [POST] of app/api/sync.  The constructor of the service only reads the
    configuration. *)
Definition POST : Async (JsonResponse SyncBody) :=
  try_catch
    (result <- syncBugathonData ;; ret (json (SyncAnswer result)))
    (fun error => ret {| status := 500; body := SyncCrash "Sync failed" error |}).

Record TeamStats := {
  totalBugs : nat;
  totalPoints : Q;
  activeUsers : nat;
  todayFixed : nat
}.

Record StatsBody := { daily : list Daily.DailyStat; team : TeamStats }.

Section Stats.

(** The store's order of the [date] column. *)
Variable date_le : string -> string -> bool.

Definition by_date_desc (a b : Daily.DailyStat) : Prop :=
  Is_true (date_le (Daily.date b) (Daily.date a)).

(** [from("daily_stats").select("*").order("date", { ascending: false }).limit(7)] *)
Definition select_recent_daily (st : Store)
  : Response (list Daily.DailyStat) * Store :=
  (Table.ok (Some (take 7 (merge_sort by_date_desc (Table.rows (daily_stats st))))), st).

(** [from("user_scores").select("*")] *)
Definition select_all_scores (st : Store)
  : Response (list Score.UserScore) * Store :=
  (Table.ok (Some (Table.rows (user_scores st))), st).

Definition teamStats (dailyRows : option (list Daily.DailyStat))
    (tickets : option (list Ticket)) (scores : option (list Score.UserScore))
  : TeamStats :=
  {| totalBugs :=
       match tickets with
       | Some l => length (filter (fun t => String.eqb (status_category t) "done") l)
       | None => 0
       end;
     totalPoints :=
       match scores with
       | Some l =>
           JS.num_or
             (foldl (fun sum user => (sum + JS.num_or (Score.total_points user) 0)%Q)
                0%Q l) 0%Q
       | None => 0%Q
       end;
     activeUsers := match scores with Some l => length l | None => 0 end;
     todayFixed :=
       match dailyRows with
       | Some (first :: _) => Daily.bugs_fixed first
       | _ => 0
       end |}.

(** [GET] of app/api/stats. *)
Definition GET : Async (JsonResponse StatsBody) :=
  dailyRows <- supabase (Select "daily_stats") select_recent_daily ;;
  tickets <- supabase (Select "bugathon_tickets") Table.select_all_tickets ;;
  scores <- supabase (Select "user_scores") select_all_scores ;;
  ret (json {| daily := default [] (data dailyRows);
               team := teamStats (data dailyRows) (data tickets) (data scores) |}).

End Stats.

End Route.

(** [getRankEmoji] of the dashboard page, for a whole rank. *)
Definition getRankEmoji (rank : nat) : string :=
  match rank with
  | 1 => "👑"
  | 2 => "🥈"
  | 3 => "🥉"
  | _ => "#" +:+ pretty rank
  end.

(** ** The score aggregator on binary64 numbers

    The points of a ticket row are JavaScript numbers, that is IEEE 754
    doubles, and [+=] on them rounds.  [IEEE] is the pass of
    [updateUserScores] and [calculateBadges] once more, with the point
    columns as doubles ([float]) and everything else as above; it is used
    where a property depends on the rounding.  A decimal literal denotes the
    nearest double, as it does in JavaScript. *)

Module IEEE.

(** A row of [bugathon_tickets]. *)
Record Ticket := {
  key : string;
  summary : string;
  is_new_bug : bool;
  status : string;
  status_category : string;
  reporter_id : string;
  reporter_name : string;
  assignee_id : option string;
  assignee_name : string;
  sprint_points : float;
  reporter_points : float;
  assignee_points : float;
  created_at : string;
  resolved_at : option string;
  priority : string;
  issue_type : string;
  last_updated : string
}.

(** The accumulator object of [updateUserScores], later a row of
    [user_scores]. *)
Record UserScore := {
  user_name : string;
  bugs_reported : nat;
  bugs_fixed : nat;
  user_reporter_points : float;
  user_assignee_points : float;
  total_points : float;
  badges : option (list string);
  updated_at : option string
}.

Definition fresh_score (name : string) : UserScore :=
  {| user_name := name; bugs_reported := 0; bugs_fixed := 0;
     user_reporter_points := 0%float; user_assignee_points := 0%float;
     total_points := 0%float; badges := None; updated_at := None |}.

(** [if (!userScores.has(name)) userScores.set(name, {...})] *)
Definition seed (name : string) (userScores : gmap string UserScore)
  : gmap string UserScore :=
  match userScores !! name with
  | Some _ => userScores
  | None => <[name := fresh_score name]> userScores
  end.

Definition add_reported (points : float) (user : UserScore) : UserScore :=
  {| user_name := user_name user;
     bugs_reported := S (bugs_reported user);
     bugs_fixed := bugs_fixed user;
     user_reporter_points := PrimFloat.add (user_reporter_points user) points;
     user_assignee_points := user_assignee_points user;
     total_points := total_points user;
     badges := badges user; updated_at := updated_at user |}.

Definition add_fixed (points : float) (user : UserScore) : UserScore :=
  {| user_name := user_name user;
     bugs_reported := bugs_reported user;
     bugs_fixed := S (bugs_fixed user);
     user_reporter_points := user_reporter_points user;
     user_assignee_points := PrimFloat.add (user_assignee_points user) points;
     total_points := total_points user;
     badges := badges user; updated_at := updated_at user |}.

(** The body of [tickets.forEach]. *)
Definition scoreTicket (userScores : gmap string UserScore) (ticket : Ticket)
  : gmap string UserScore :=
  let userScores :=
    if is_new_bug ticket && negb (String.eqb (reporter_name ticket) "") then
      alter (add_reported (reporter_points ticket)) (reporter_name ticket)
        (seed (reporter_name ticket) userScores)
    else userScores in
  if String.eqb (status_category ticket) "done"
     && negb (String.eqb (assignee_name ticket) "Unassigned") then
    alter (add_fixed (assignee_points ticket)) (assignee_name ticket)
      (seed (assignee_name ticket) userScores)
  else userScores.

(** The pass over the tickets, in the order in which they were read. *)
Definition accumulate (tickets : list Ticket) : gmap string UserScore :=
  foldl scoreTicket ∅ tickets.

Definition calculateBadges (user : UserScore) : list string :=
  let badges := [] in
  let badges :=
    if (10 <=? bugs_reported user)%nat then badges ++ [Label.bug_hunter_elite]
    else if (5 <=? bugs_reported user)%nat then badges ++ [Label.bug_hunter]
    else badges in
  let badges :=
    if (10 <=? bugs_fixed user)%nat then badges ++ [Label.bug_slayer_supreme]
    else if (5 <=? bugs_fixed user)%nat then badges ++ [Label.bug_slayer]
    else badges in
  let badges :=
    if PrimFloat.leb 100 (total_points user) then badges ++ [Label.point_master]
    else if PrimFloat.leb 50 (total_points user) then badges ++ [Label.rising_star]
    else badges in
  let badges :=
    if (0 <? bugs_reported user)%nat && (0 <? bugs_fixed user)%nat
    then badges ++ [Label.all_rounder] else badges in
  let badges :=
    if (3 <=? bugs_fixed user)%nat then badges ++ [Label.speed_demon]
    else badges in
  if (0 <? length badges)%nat then badges else [Label.participant].

(** The callback of the final [map]: totals, badges, time stamp. *)
Definition finalize (now : string) (user : UserScore) : UserScore :=
  let total := PrimFloat.add (user_reporter_points user) (user_assignee_points user) in
  let user :=
    {| user_name := user_name user;
       bugs_reported := bugs_reported user;
       bugs_fixed := bugs_fixed user;
       user_reporter_points := user_reporter_points user;
       user_assignee_points := user_assignee_points user;
       total_points := total;
       badges := badges user; updated_at := updated_at user |} in
  {| user_name := user_name user;
     bugs_reported := bugs_reported user;
     bugs_fixed := bugs_fixed user;
     user_reporter_points := user_reporter_points user;
     user_assignee_points := user_assignee_points user;
     total_points := total_points user;
     badges := Some (calculateBadges user);
     updated_at := Some now |}.

Definition stampScore (user : UserScore) : Async UserScore :=
  now <- new_Date ;; ret (finalize now user).

Definition scoresArray (tickets : list Ticket) : Async (list UserScore) :=
  mapM stampScore (Table.rows (accumulate tickets)).

(** The fields of a score that do not depend on the time of the run. *)
Definition score_core (s : UserScore)
  : string * nat * nat * float * float * float * option (list string) :=
  (user_name s, bugs_reported s, bugs_fixed s,
   user_reporter_points s, user_assignee_points s, total_points s, badges s).


End IEEE.



(** ** Facts about the string primitives *)

Section StringFacts.

#[local] Arguments append !_ _ / : simpl nomatch.

Lemma lower_upper_ascii c : JS.lower_ascii (JS.upper_ascii c) = JS.lower_ascii c.
Proof. destruct c as [[] [] [] [] [] [] [] []]; reflexivity. Qed.

Lemma upper_lower_ascii c : JS.upper_ascii (JS.lower_ascii c) = JS.upper_ascii c.
Proof. destruct c as [[] [] [] [] [] [] [] []]; reflexivity. Qed.

Lemma toLowerCase_toUpperCase s : JS.toLowerCase (JS.toUpperCase s) = JS.toLowerCase s.
Proof. induction s as [|c s IH]; simpl; [done|]. by rewrite lower_upper_ascii, IH. Qed.

Lemma toUpperCase_toLowerCase s : JS.toUpperCase (JS.toLowerCase s) = JS.toUpperCase s.
Proof. induction s as [|c s IH]; simpl; [done|]. by rewrite upper_lower_ascii, IH. Qed.

Lemma toUpperCase_app s t :
  JS.toUpperCase (s +:+ t) = JS.toUpperCase s +:+ JS.toUpperCase t.
Proof. induction s as [|c s IH]; simpl; [done|]. by rewrite IH. Qed.

(** A split of the upper-cased text comes from a split of the text. *)
Lemma toUpperCase_split s : forall a b,
  JS.toUpperCase s = a +:+ b ->
  exists a' b', s = a' +:+ b' /\ JS.toUpperCase a' = a /\ JS.toUpperCase b' = b.
Proof.
  induction s as [|c s IH]; intros a b H.
  - destruct a; simpl in H; [|discriminate]. subst b.
    by exists "", "".
  - destruct a as [|x a]; simpl in H.
    + subst b. by exists "", (String c s).
    + injection H as Hx Hs.
      destruct (IH _ _ Hs) as (a' & b' & -> & Ha & Hb).
      exists (String c a'), b'. simpl. by rewrite Hx, Ha, Hb.
Qed.

Lemma prefix_app p s : String.prefix p s = true <-> exists t, s = p +:+ t.
Proof.
  revert s. induction p as [|c p IH]; intros s.
  - destruct s; simpl; split; eauto.
  - destruct s as [|d s]; simpl.
    + split; [discriminate|]. by intros [t Ht].
    + destruct (Ascii.ascii_dec c d) as [->|Hne].
      * rewrite IH. split; intros [t Ht]; exists t; congruence.
      * split; [discriminate|]. intros [t Ht]. congruence.
Qed.

(** [includes] finds exactly the texts that have the needle as a factor. *)
Lemma includes_spec s needle :
  JS.includes s needle = true <-> exists pre post, s = pre +:+ needle +:+ post.
Proof.
  induction s as [|c s IH].
  - change (JS.includes "" needle) with (String.prefix needle "" || false).
    rewrite orb_false_r, prefix_app. split.
    + intros [t Ht]. by exists "", t.
    + intros (pre & post & H). destruct pre; simpl in H; [by exists post|discriminate].
  - change (JS.includes (String c s) needle)
      with (String.prefix needle (String c s) || JS.includes s needle).
    rewrite orb_true_iff, prefix_app, IH. split.
    + intros [[t Ht]|(pre & post & ->)].
      * by exists "", t.
      * by exists (String c pre), post.
    + intros (pre & post & H). destruct pre as [|d pre]; simpl in H.
      * left. by exists post.
      * right. injection H as _ ->. by exists pre, post.
Qed.

Lemma includes_upper_marker s :
  JS.includes (JS.toUpperCase s) "[BUGATHON NEW]" = true <->
  contains_ignoring_case s "[bugathon new]".
Proof.
  rewrite includes_spec. split.
  - intros (pre & post & H).
    apply toUpperCase_split in H as (pre' & rest & -> & _ & H).
    apply toUpperCase_split in H as (mid & post' & -> & Hmid & _).
    exists pre', mid, post'. split; [done|].
    by rewrite <- toLowerCase_toUpperCase, Hmid.
  - intros (pre & mid & post & -> & Hmid).
    exists (JS.toUpperCase pre), (JS.toUpperCase post).
    rewrite !toUpperCase_app. do 2 f_equal.
    by rewrite <- toUpperCase_toLowerCase, Hmid.
Qed.

End StringFacts.

(** ** The ticket normalizer *)

Section Normalizer.

Lemma num_or_zero x : (JS.num_or x 0 == x)%Q.
Proof.
  unfold JS.num_or. destruct (Qeq_bool x 0) eqn:E; [|reflexivity].
  symmetry. by apply Qeq_bool_iff.
Qed.

Lemma str_or_nonempty s d : d <> "" -> JS.str_or s d <> "".
Proof.
  intros Hd. unfold JS.str_or. destruct (String.eqb s "") eqn:E; [done|].
  by apply String.eqb_neq in E.
Qed.

(** The normalizer never leaves the assignee name empty. *)
Lemma processTicket_assignee_name now ticket :
  assignee_name (processTicket now ticket) <> "".
Proof.
  unfold processTicket; simpl. destruct (Jira.assignee _); [|done].
  by apply str_or_nonempty.
Qed.

End Normalizer.

(** C1. [processTicket] is a total function of the raw ticket (and of the
    time stamp it writes to [last_updated]); in its result, [is_new_bug]
    holds exactly when the summary contains "[bugathon new]" up to letter
    case; a missing points field gives sprint points 0, a missing assignee
    the name "Unassigned" (and no id), a missing resolution date no
    date; [reporter_points] is half the sprint points for a new bug and 0
    otherwise; [assignee_points] is the sprint points for status category
    "done" and 0 otherwise. *)
Theorem processTicket_spec (now : string) (ticket : Jira.JiraTicket) :
  let n := processTicket now ticket in
  let f := Jira.fields ticket in
  (is_new_bug n = true <-> contains_ignoring_case (Jira.summary f) "[bugathon new]")
  /\ (Jira.customfield_10016 f = None -> sprint_points n = 0%Q)
  /\ (forall x, Jira.customfield_10016 f = Some x -> (sprint_points n == x)%Q)
  /\ (Jira.assignee f = None ->
      assignee_name n = "Unassigned" /\ assignee_id n = None)
  /\ (Jira.resolutiondate f = None -> resolved_at n = None)
  /\ status_category n = Jira.category_key (Jira.statusCategory (Jira.status f))
  /\ reporter_points n =
       (if is_new_bug n then (sprint_points n * (1 # 2))%Q else 0%Q)
  /\ assignee_points n =
       (if String.eqb (status_category n) "done" then sprint_points n else 0%Q)
  /\ (is_new_bug n = false -> reporter_points n = 0%Q)
  /\ (status_category n <> "done" -> assignee_points n = 0%Q).
Proof.
  intros n f. subst n f. unfold processTicket; simpl.
  split; [apply includes_upper_marker|].
  split; [by intros ->|].
  split; [intros x ->; apply num_or_zero|].
  split; [by intros ->|].
  split; [by intros ->|].
  split; [done|].
  split; [done|].
  split; [done|].
  split; [by intros ->|].
  intros Hne. apply String.eqb_neq in Hne. by rewrite Hne.
Qed.

Lemma processTicket_spec_witness :
  contains_ignoring_case "[Bugathon New] crash" "[bugathon new]"
  /\ sprint_points (processTicket "t0" Sample.ticketC) = 0%Q
  /\ assignee_name (processTicket "t0" Sample.ticketC) = "Unassigned"
  /\ resolved_at (processTicket "t0" Sample.ticketC) = None
  /\ reporter_points (processTicket "t0" Sample.ticketC) = 0%Q
  /\ assignee_points (processTicket "t0" Sample.ticketC) = 0%Q.
Proof.
  destruct (processTicket_spec "t0" Sample.ticketA) as (Hnew & _).
  destruct (processTicket_spec "t0" Sample.ticketC)
    as (_ & Hpts & _ & Hasg & Hres & _ & _ & _ & Hrep & Hdone).
  split; [apply Hnew; reflexivity|].
  split; [apply Hpts; reflexivity|].
  split; [apply Hasg; reflexivity|].
  split; [apply Hres; reflexivity|].
  split; [apply Hrep; reflexivity|].
  apply Hdone. simpl. discriminate.
Defined.

(** ** The badge evaluator *)

Section Badges.

Lemma calculateBadges_tests user :
calculateBadges user =
badges_of_tests (10 <=? Score.bugs_reported user)%nat (5 <=? Score.bugs_reported user)%nat
  (10 <=? Score.bugs_fixed user)%nat (5 <=? Score.bugs_fixed user)%nat
  (Qle_bool 100 (Score.total_points user)) (Qle_bool 50 (Score.total_points user))
  (0 <? Score.bugs_reported user)%nat (0 <? Score.bugs_fixed user)%nat
  (3 <=? Score.bugs_fixed user)%nat.
Proof. reflexivity. Qed.

Lemma Qle_bool_false x y : Qle_bool x y = false -> (y < x)%Q.
Proof.
  intros H. apply Qnot_le_lt. intros Hle.
  apply Qle_bool_iff in Hle. congruence.
Qed.

#[local] Ltac decide_closed := apply (bool_decide_unpack _); vm_compute; exact I.

#[local] Ltac sublist_closed :=
  vm_compute;
  repeat match goal with
    | |- [] `sublist_of` [] => apply sublist_nil
    | |- (?x :: _) `sublist_of` (?x :: _) => apply sublist_skip
    | |- _ `sublist_of` (_ :: _) => apply sublist_cons
    end.

#[local] Ltac arith := repeat split; first [lia | lra].

#[local] Ltac closed_iff :=
  match goal with
  | |- ?P <-> _ =>
      first
        [ assert (HP : P) by decide_closed;
          split; [intros _; arith | intros _; exact HP]
        | assert (HP : ~ P) by decide_closed;
          split; [intros HP'; destruct (HP HP') | intros HQ; exfalso; first [lia | lra]] ]
  end.

#[local] Ltac reflect_tests :=
  repeat match goal with
    | H : (_ <=? _)%nat = true |- _ => apply Nat.leb_le in H
    | H : (_ <=? _)%nat = false |- _ => apply Nat.leb_gt in H
    | H : (_ <? _)%nat = true |- _ => apply Nat.ltb_lt in H
    | H : (_ <? _)%nat = false |- _ => apply Nat.ltb_ge in H
    | H : Qle_bool _ _ = true |- _ => apply Qle_bool_iff in H
    | H : Qle_bool _ _ = false |- _ => apply Qle_bool_false in H
    end.

(** C3 (amended). [calculateBadges] depends only on [bugs_reported],
    [bugs_fixed] and [total_points]; its result lists, in the order of the
    categories Hunter, Slayer, Points, Versatility, Velocity, the highest
    tier reached in each, under the labels of the code: Bug Hunter Elite
    iff bugs_reported >= 10, Bug Hunter iff 5 <= bugs_reported < 10, Bug
    Slayer Supreme iff bugs_fixed >= 10, Bug Slayer iff 5 <= bugs_fixed <
    10, Point Master iff total_points >= 100, Rising Star iff 50 <=
    total_points < 100, All-Rounder iff both counters are positive, Speed
    Demon iff bugs_fixed >= 3, and the single label Participant iff no
    category matches; each label carries its leading icon.  The three
    examples give the code's labels. *)
Theorem calculateBadges_spec (user : Score.UserScore) :
  let br := Score.bugs_reported user in
  let bf := Score.bugs_fixed user in
  let tp := Score.total_points user in
  let badges := calculateBadges user in
  (forall other,
      Score.bugs_reported other = br -> Score.bugs_fixed other = bf ->
      Score.total_points other = tp -> calculateBadges other = badges)
  /\ badges `sublist_of` Label.in_category_order
  /\ (Label.bug_hunter_elite ∈ badges <-> 10 <= br)
  /\ (Label.bug_hunter ∈ badges <-> 5 <= br < 10)
  /\ (Label.bug_slayer_supreme ∈ badges <-> 10 <= bf)
  /\ (Label.bug_slayer ∈ badges <-> 5 <= bf < 10)
  /\ (Label.point_master ∈ badges <-> (100 <= tp)%Q)
  /\ (Label.rising_star ∈ badges <-> (50 <= tp < 100)%Q)
  /\ (Label.all_rounder ∈ badges <-> 0 < br /\ 0 < bf)
  /\ (Label.speed_demon ∈ badges <-> 3 <= bf)
  /\ (badges = [Label.participant] <->
      br < 5 /\ bf < 3 /\ (tp < 50)%Q /\ ~ (0 < br /\ 0 < bf))
  /\ calculateBadges (Sample.user_with 12 0 0) = [Label.bug_hunter_elite]
  /\ calculateBadges (Sample.user_with 6 6 60) =
       [Label.bug_hunter; Label.bug_slayer; Label.rising_star;
        Label.all_rounder; Label.speed_demon]
  /\ calculateBadges (Sample.user_with 0 0 0) = [Label.participant].
Proof.
  intros br bf tp badges.
  split.
  { intros other Hbr Hbf Htp. subst badges br bf tp.
    unfold calculateBadges. by rewrite Hbr, Hbf, Htp. }
  assert (Hex : calculateBadges (Sample.user_with 12 0 0) = [Label.bug_hunter_elite]
    /\ calculateBadges (Sample.user_with 6 6 60) =
       [Label.bug_hunter; Label.bug_slayer; Label.rising_star;
        Label.all_rounder; Label.speed_demon]
    /\ calculateBadges (Sample.user_with 0 0 0) = [Label.participant])
    by (repeat split; vm_compute; reflexivity).
  revert Hex. generalize (calculateBadges (Sample.user_with 12 0 0))
    (calculateBadges (Sample.user_with 6 6 60)) (calculateBadges (Sample.user_with 0 0 0)).
  intros e1 e2 e3 Hex.
  subst badges. rewrite calculateBadges_tests. fold br bf tp.
  (destruct (10 <=? br)%nat eqn:E1, (5 <=? br)%nat eqn:E2,
    (10 <=? bf)%nat eqn:E3, (5 <=? bf)%nat eqn:E4,
    (Qle_bool 100 tp) eqn:E5, (Qle_bool 50 tp) eqn:E6,
    (0 <? br)%nat eqn:E7, (0 <? bf)%nat eqn:E8, (3 <=? bf)%nat eqn:E9).
  all: reflect_tests.
  all: try (exfalso; lia).
  all: try (exfalso; lra).
  all: (set (l := badges_of_tests _ _ _ _ _ _ _ _ _); vm_compute in l; subst l).
  all: (split; [sublist_closed|]).
  all: repeat (split; [closed_iff|]).
  all: exact Hex.
Qed.
End Badges.

(** C3, as stated: the labels of the claim are not those of the code. *)
Lemma calculateBadges_not_claimed_labels :
  calculateBadges (Sample.user_with 12 0 0) <> ["Elite Hunter"].
Proof. vm_compute. intros H. discriminate H. Qed.

Lemma calculateBadges_spec_witness :
  Label.bug_hunter ∈ calculateBadges (Sample.user_with 6 6 60)
  /\ (Label.bug_hunter_elite ∉ calculateBadges (Sample.user_with 6 6 60))
  /\ calculateBadges (add_reported 0 (Sample.user_with 5 6 60)) =
       calculateBadges (Sample.user_with 6 6 60).
Proof.
  destruct (calculateBadges_spec (Sample.user_with 6 6 60))
    as (Hpure & _ & Helite & Hhunter & _).
  split; [apply Hhunter; simpl; lia|].
  split; [intros H; apply Helite in H; simpl in H; lia|].
  apply Hpure; reflexivity.
Defined.

(** ** The score aggregator *)

Section Aggregator.

Implicit Types (m : gmap string Score.UserScore) (t : Ticket) (u : string).

Lemma seed_lookup name m u :
  seed name m !! u =
  if decide (name = u) then Some (default (fresh_score name) (m !! name)) else m !! u.
Proof.
  unfold seed. destruct (m !! name) as [s|] eqn:E; case_decide; subst; simpl.
  - done.
  - done.
  - by rewrite lookup_insert_eq.
  - by rewrite lookup_insert_ne.
Qed.

Lemma alter_seed_lookup f name m u :
  alter f name (seed name m) !! u = credit (String.eqb name u) f u (m !! u).
Proof.
  unfold credit. destruct (String.eqb name u) eqn:E.
  - apply String.eqb_eq in E as ->.
    rewrite lookup_alter_eq, seed_lookup. by rewrite decide_True.
  - apply String.eqb_neq in E.
    rewrite lookup_alter_ne, seed_lookup by done. by rewrite decide_False.
Qed.

Lemma scoreTicket_lookup m t u :
  scoreTicket m t !! u =
  credit (credits_assignee u t) (add_fixed (assignee_points t)) u
    (credit (credits_reporter u t) (add_reported (reporter_points t)) u (m !! u)).
Proof.
  unfold scoreTicket, credits_assignee, credits_reporter.
  destruct (String.eqb (status_category t) "done"
            && negb (String.eqb (assignee_name t) "Unassigned")); simpl.
  - rewrite alter_seed_lookup. f_equal.
    destruct (is_new_bug t && negb (String.eqb (reporter_name t) "")); simpl; [|done].
    by rewrite alter_seed_lookup.
  - destruct (is_new_bug t && negb (String.eqb (reporter_name t) "")); simpl; [|done].
    by rewrite alter_seed_lookup.
Qed.

Lemma sumQ_snoc l x : sumQ (l ++ [x]) = (sumQ l + x)%Q.
Proof. unfold sumQ. by rewrite foldl_app. Qed.

Lemma credited_snoc u l t :
  credited u (l ++ [t]) = credited u l || (credits_reporter u t || credits_assignee u t).
Proof. unfold credited. rewrite existsb_app. simpl. by rewrite orb_false_r. Qed.

Lemma filter_singleton_bool (p : Ticket -> bool) t :
  filter p [t] = if p t then [t] else [].
Proof.
  rewrite filter_cons, filter_nil. destruct (p t); simpl; try case_decide; done.
Qed.

Lemma tally_snoc u l t :
  tally u (l ++ [t]) =
  (if credits_assignee u t then add_fixed (assignee_points t) else id)
    ((if credits_reporter u t then add_reported (reporter_points t) else id)
       (tally u l)).
Proof.
  unfold tally. rewrite !filter_app, !filter_singleton_bool.
  destruct (credits_reporter u t), (credits_assignee u t); simpl;
    rewrite ?app_nil_r, ?fmap_app, ?length_app, ?sumQ_snoc; simpl;
    rewrite ?sumQ_snoc, ?Nat.add_1_r; reflexivity.
Qed.

Lemma uncredited_filters u l :
  credited u l = false ->
  filter (credits_reporter u) l = [] /\ filter (credits_assignee u) l = [].
Proof.
  induction l as [|t l IH]; [done|]. unfold credited; simpl.
  intros H. apply orb_false_iff in H as [H1 H2].
  apply orb_false_iff in H1 as [Hr Ha].
  destruct (IH H2) as [IHr IHa].
  rewrite !filter_cons, Hr, Ha. simpl. by rewrite IHr, IHa.
Qed.

Lemma tally_uncredited u l : credited u l = false -> tally u l = fresh_score u.
Proof.
  intros H. destruct (uncredited_filters _ _ H) as [Hr Ha].
  unfold tally. by rewrite Hr, Ha.
Qed.

(** What the pass over the tickets leaves under each key. *)
Lemma accumulate_lookup tickets u :
  accumulate tickets !! u =
  if credited u tickets then Some (tally u tickets) else None.
Proof.
  unfold accumulate. induction tickets as [|t l IH] using rev_ind.
  - simpl. apply lookup_empty.
  - rewrite foldl_app. simpl. rewrite scoreTicket_lookup, IH.
    rewrite credited_snoc, tally_snoc.
    assert (Hd : default (fresh_score u)
                   (if credited u l then Some (tally u l) else None) = tally u l).
    { destruct (credited u l) eqn:E; simpl; [done|]. by rewrite tally_uncredited. }
    unfold credit.
    destruct (credits_reporter u t), (credits_assignee u t); simpl;
      rewrite ?Hd, ?orb_true_r, ?orb_false_r; done.
Qed.

(** *** The final pass *)

Lemma mapM_cons {A B} (f : A -> Async B) x l w :
  mapM f (x :: l) w =
  match f x w with
  | (Returned y, w1) =>
      match mapM f l w1 with
      | (Returned ys, w2) => (Returned (y :: ys), w2)
      | (Thrown e, w2) => (Thrown e, w2)
      end
  | (Thrown e, w1) => (Thrown e, w1)
  end.
Proof. reflexivity. Qed.

Lemma with_clock_twice c c' w : with_clock c (with_clock c' w) = with_clock c w.
Proof. reflexivity. Qed.

Lemma with_clock_same w : with_clock (clock w) w = w.
Proof. by destruct w. Qed.

Lemma stampScore_run user w :
  stampScore user w =
  (Returned (finalize (default "1970-01-01T00:00:00.000Z" (head (clock w))) user),
   with_clock (tail (clock w)) w).
Proof. reflexivity. Qed.

Lemma stamp_all_run (l : list Score.UserScore) : forall w,
  exists times,
    length times = length l /\
    mapM stampScore l w =
      (Returned (zip_with finalize times l),
       with_clock (drop (length l) (clock w)) w).
Proof.
  induction l as [|s l IH]; intros w.
  - exists []. split; [done|]. simpl. unfold ret. by rewrite drop_0, with_clock_same.
  - rewrite mapM_cons, stampScore_run.
    destruct (IH (with_clock (tail (clock w)) w)) as (times & Hlen & ->).
    exists (default "1970-01-01T00:00:00.000Z" (head (clock w)) :: times).
    split; [simpl; by rewrite Hlen|].
    simpl. rewrite with_clock_twice. do 2 f_equal.
    destruct (clock w); simpl; by rewrite ?drop_nil.
Qed.

Lemma scoresArray_run tickets w :
  exists times,
    length times = length (Table.rows (accumulate tickets)) /\
    scoresArray tickets w =
      (Returned (zip_with finalize times (Table.rows (accumulate tickets))),
       with_clock (drop (length (Table.rows (accumulate tickets))) (clock w)) w).
Proof. apply stamp_all_run. Qed.

Lemma elem_of_stamped times (l : list Score.UserScore) row :
  row ∈ zip_with finalize times l -> exists now s, s ∈ l /\ row = finalize now s.
Proof.
  intros H. apply elem_of_lookup_zip_with in H as (i & now & s & -> & _ & Hs).
  exists now, s. split; [|done]. by eapply list_elem_of_lookup_2.
Qed.

Lemma stamped_names times (l : list Score.UserScore) :
  length times = length l ->
  Score.user_name <$> zip_with finalize times l = Score.user_name <$> l.
Proof.
  revert times. induction l as [|s l IH]; intros [|now times] Hlen; try done.
  simpl. f_equal. apply IH. by injection Hlen.
Qed.


Lemma elem_of_accumulated tickets s :
  s ∈ Table.rows (accumulate tickets) <->
  exists u, credited u tickets = true /\ s = tally u tickets.
Proof.
  unfold Table.rows. rewrite list_elem_of_fmap. split.
  - intros ([u s'] & -> & Hin). apply elem_of_map_to_list in Hin.
    rewrite accumulate_lookup in Hin. exists u.
    destruct (credited u tickets); [|done]. split; [done|]. by injection Hin.
  - intros (u & Hc & ->). exists (u, tally u tickets). split; [done|].
    apply elem_of_map_to_list. by rewrite accumulate_lookup, Hc.
Qed.

Lemma accumulated_names tickets :
  Score.user_name <$> Table.rows (accumulate tickets) =
  (map_to_list (accumulate tickets)).*1.
Proof.
  unfold Table.rows. rewrite <- list_fmap_compose.
  apply Forall_fmap_ext_1, Forall_forall. intros [u s] Hin. simpl.
  apply elem_of_map_to_list in Hin. rewrite accumulate_lookup in Hin.
  destruct (credited u tickets); [|done]. by injection Hin as <-.
Qed.

Lemma accumulated_names_NoDup tickets :
  NoDup (Score.user_name <$> Table.rows (accumulate tickets)).
Proof. rewrite accumulated_names. apply NoDup_fst_map_to_list. Qed.

Lemma elem_of_accumulated_names tickets u :
  u ∈ Score.user_name <$> Table.rows (accumulate tickets) <-> credited u tickets = true.
Proof.
  rewrite accumulated_names, list_elem_of_fmap. split.
  - intros ([u' s] & -> & Hin). apply elem_of_map_to_list in Hin.
    rewrite accumulate_lookup in Hin. simpl. by destruct (credited u' tickets).
  - intros Hc. exists (u, tally u tickets). split; [done|].
    apply elem_of_map_to_list. by rewrite accumulate_lookup, Hc.
Qed.

Lemma credited_spec u tickets :
  credited u tickets = true <->
  exists t, t ∈ tickets /\ (credits_reporter u t = true \/ credits_assignee u t = true).
Proof.
  unfold credited. rewrite existsb_exists. split.
  - intros (t & Hin & H). exists t. split; [by apply list_elem_of_In|].
    by apply orb_true_iff.
  - intros (t & Hin & H). exists t. split; [by apply list_elem_of_In|].
    by apply orb_true_iff.
Qed.
End Aggregator.

(** ** Runs of store calls *)

(** A store call either fails as scripted or runs its operation. *)
Lemma supabase_cases {A} ev (op : Store -> Response A * Store) w :
  let w0 := with_faults (tail (faults w)) (log ev w) in
  (exists e, head (faults w) = Some (Some e) /\
     supabase ev op w = (Returned {| data := None; error := Some e |}, w0))
  \/ (head (faults w) <> None -> head (faults w) = Some None) /\
     supabase ev op w = (Returned (op (db w)).1, with_db (op (db w)).2 w0).
Proof.
  unfold supabase. destruct (head (faults w)) as [[e|]|]; simpl.
  - left. by exists e.
  - right. split; [done|]. by destruct (op (db w)).
  - right. split; [done|]. by destruct (op (db w)).
Qed.

#[local] Arguments supabase : simpl never.
#[local] Arguments scoresArray : simpl never.

Ltac store_call H :=
  match goal with
  | |- context [supabase ?ev ?op ?w] =>
      let e := fresh "e" in
      destruct (supabase_cases ev op w) as [(e & H & ->)|[H ->]]
  end.

Section AggregatorSpec.

Lemma filter_bool_ext (p q : Ticket -> bool) (l : list Ticket) :
  Forall (fun t => p t = q t) l -> filter p l = filter q l.
Proof.
  induction 1 as [|t l Ht _ IH]; [done|].
  by rewrite !filter_cons, Ht, IH.
Qed.

Lemma credits_reporter_spec u t : credits_reporter u t = reporter_of_new_bug u t.
Proof.
  unfold credits_reporter, reporter_of_new_bug.
  destruct (is_new_bug t); simpl; [|done].
  destruct (String.eqb (reporter_name t) u) eqn:E.
  - apply String.eqb_eq in E as ->. by rewrite andb_true_r.
  - by rewrite andb_false_r.
Qed.

Lemma credits_assignee_spec u t :
  assignee_name t <> "" -> credits_assignee u t = done_assignee u t.
Proof.
  intros Hne. unfold credits_assignee, done_assignee.
  destruct (String.eqb (status_category t) "done"); simpl; [|done].
  destruct (String.eqb (assignee_name t) u) eqn:E.
  - apply String.eqb_eq in E as <-. apply String.eqb_neq in Hne.
    rewrite Hne. simpl. by rewrite andb_true_r.
  - by rewrite andb_false_r.
Qed.

Lemma NormalizedTicket_assignee t : NormalizedTicket t -> assignee_name t <> "".
Proof. intros (now & raw & ->). apply processTicket_assignee_name. Qed.

(** Every row of the final pass is the stamped tally of its user. *)
Lemma scoresArray_rows tickets w rows w' :
  scoresArray tickets w = (Returned rows, w') ->
  NoDup (Score.user_name <$> rows)
  /\ (forall u, u ∈ Score.user_name <$> rows <-> credited u tickets = true)
  /\ (forall row, row ∈ rows ->
        credited (Score.user_name row) tickets = true
        /\ exists now, row = finalize now (tally (Score.user_name row) tickets)).
Proof.
  destruct (scoresArray_run tickets w) as (times & Hlen & ->).
  intros [= <- <-].
  rewrite stamped_names by done.
  split; [apply accumulated_names_NoDup|].
  split; [apply elem_of_accumulated_names|].
  intros row Hrow. apply elem_of_stamped in Hrow as (now & s & Hs & ->).
  apply elem_of_accumulated in Hs as (u & Hu & ->). simpl. eauto.
Qed.

(** *** The upsert *)

Lemma upsert_lookup_ne {V} (key_of : V -> string) rows (t : gmap string V) u :
  u ∉ key_of <$> rows -> Table.upsert key_of rows t !! u = t !! u.
Proof.
  unfold Table.upsert. revert t. induction rows as [|r rows IH]; intros t Hu; [done|].
  simpl in *. apply not_elem_of_cons in Hu as [Hne Hu].
  rewrite IH by done. by rewrite lookup_insert_ne.
Qed.

Lemma upsert_lookup {V} (key_of : V -> string) rows (t : gmap string V) row :
  NoDup (key_of <$> rows) -> row ∈ rows ->
  Table.upsert key_of rows t !! key_of row = Some row.
Proof.
  unfold Table.upsert. revert t. induction rows as [|r rows IH]; intros t Hnd Hin.
  - by apply elem_of_nil in Hin.
  - simpl in *. apply NoDup_cons in Hnd as [Hr Hnd].
    apply elem_of_cons in Hin as [->|Hin]; [|by apply IH].
    pose proof (upsert_lookup_ne key_of rows (<[key_of r := r]> t) (key_of r) Hr) as H.
    unfold Table.upsert in H. rewrite H. apply lookup_insert_eq.
Qed.

(** What a run of [updateUserScores] does to the store. *)
Lemma updateUserScores_effect w :
  exists w',
    updateUserScores w = (Returned tt, w')
    /\ bugathon_tickets (db w') = bugathon_tickets (db w)
    /\ daily_stats (db w') = daily_stats (db w)
    /\ achievements (db w') = achievements (db w)
    /\ (user_scores (db w') = user_scores (db w) \/
        exists rows w1 w2,
          scoresArray (Table.rows (bugathon_tickets (db w))) w1 = (Returned rows, w2)
          /\ user_scores (db w') =
               Table.upsert Score.user_name rows (user_scores (db w)))
    /\ (faults w = [] ->
        exists rows w1 w2,
          scoresArray (Table.rows (bugathon_tickets (db w))) w1 = (Returned rows, w2)
          /\ user_scores (db w') =
               Table.upsert Score.user_name rows (user_scores (db w))).
Proof.
  unfold updateUserScores, bind at 1. store_call Hf; simpl.
  - eexists. split; [reflexivity|]. simpl.
    repeat split; try done; [by left|]. intros Hnil. by rewrite Hnil in Hf.
  - unfold bind at 1.
    match goal with
    | |- context [scoresArray ?l ?w1] =>
        destruct (scoresArray_run l w1) as (times & Hlen & Hrun)
    end.
    rewrite Hrun. unfold bind at 1. store_call Hf2; simpl.
    + eexists. split; [reflexivity|]. simpl.
      repeat split; try done; [by left|]. intros Hnil. by rewrite Hnil in Hf2.
    + eexists. split; [reflexivity|]. simpl.
      repeat split; try done; [right|intros _]; by eexists _, _, _.
Qed.

End AggregatorSpec.

(** C2. For every list of normalized tickets the aggregator returns a list
    of rows with pairwise distinct user names; a name has a row exactly when
    it is the present reporter of some new-bug ticket or the present,
    non-sentinel assignee of some done ticket; and in each row
    [bugs_reported] and [reporter_points] are the count and the sum of
    [reporter_points] of the user's new-bug tickets, [bugs_fixed] and
    [assignee_points] the count and the sum of [assignee_points] of the
    user's done tickets, and [total_points] the sum of the two point
    fields. *)
Theorem scoresArray_spec (tickets : list Ticket) (w : World) :
  Forall NormalizedTicket tickets ->
  exists rows w',
    scoresArray tickets w = (Returned rows, w')
    /\ NoDup (Score.user_name <$> rows)
    /\ (forall u,
          u ∈ Score.user_name <$> rows <->
          exists t, t ∈ tickets /\
            (reporter_of_new_bug u t = true \/ done_assignee u t = true))
    /\ (forall row, row ∈ rows ->
          let reported := filter (reporter_of_new_bug (Score.user_name row)) tickets in
          let fixed := filter (done_assignee (Score.user_name row)) tickets in
          Score.bugs_reported row = length reported
          /\ Score.reporter_points row = sumQ (reporter_points <$> reported)
          /\ Score.bugs_fixed row = length fixed
          /\ Score.assignee_points row = sumQ (assignee_points <$> fixed)
          /\ Score.total_points row =
               (Score.reporter_points row + Score.assignee_points row)%Q).
Proof.
  intros Hnorm.
  assert (Hr : forall u, filter (credits_reporter u) tickets =
                         filter (reporter_of_new_bug u) tickets).
  { intros u. apply filter_bool_ext, Forall_forall. intros t _.
    apply credits_reporter_spec. }
  assert (Ha : forall u, filter (credits_assignee u) tickets =
                         filter (done_assignee u) tickets).
  { intros u. apply filter_bool_ext. eapply Forall_impl; [exact Hnorm|].
    intros t Ht. by apply credits_assignee_spec, NormalizedTicket_assignee. }
  destruct (scoresArray_run tickets w) as (times & Hlen & Hrun).
  eexists _, _. split; [exact Hrun|].
  destruct (scoresArray_rows _ _ _ _ Hrun) as (Hnd & Hnames & Hrows).
  split; [exact Hnd|]. split.
  - intros u. rewrite Hnames, credited_spec.
    split; intros (t & Hin & H); exists t; (split; [done|]).
    + rewrite <- credits_reporter_spec, <- credits_assignee_spec; [done|].
      apply NormalizedTicket_assignee. by eapply Forall_forall in Hnorm.
    + rewrite credits_reporter_spec, credits_assignee_spec; [done|].
      apply NormalizedTicket_assignee. by eapply Forall_forall in Hnorm.
  - intros row Hrow. destruct (Hrows row Hrow) as (_ & now & Heq).
    remember (Score.user_name row) as u eqn:Hu. subst row. clear Hu.
    simpl. by rewrite <- Hr, <- Ha.
Qed.

Lemma scoresArray_spec_witness :
  exists rows w',
    scoresArray [processTicket "t1" Sample.ticketA; processTicket "t2" Sample.ticketB]
      (Sample.world Sample.empty_store (inr []) [] []) = (Returned rows, w')
    /\ NoDup (Score.user_name <$> rows).
Proof.
  destruct (scoresArray_spec
              [processTicket "t1" Sample.ticketA; processTicket "t2" Sample.ticketB]
              (Sample.world Sample.empty_store (inr []) [] []))
    as (rows & w' & Hrun & Hnd & _).
  - repeat constructor; eexists _, _; reflexivity.
  - exists rows, w'. split; [exact Hrun|exact Hnd].
Defined.

(** C10 (amended). [updateUserScores] writes rows only for user names of
    the tickets in the store: it leaves the row of every user name that
    occurs in no stored ticket, neither as reporter nor as assignee, exactly
    as it was, present or absent, with the same counters, badges and
    [updated_at], whatever the store answers. *)
Theorem updateUserScores_frame (w : World) (u : string) :
  (forall t, t ∈ Table.rows (bugathon_tickets (db w)) ->
             reporter_name t <> u /\ assignee_name t <> u) ->
  user_scores (db (updateUserScores w).2) !! u = user_scores (db w) !! u.
Proof.
  intros Habsent.
  destruct (updateUserScores_effect w) as (w' & Hw' & _ & _ & _ & Hscores & _).
  rewrite Hw'. simpl.
  destruct Hscores as [->|(rows & w1 & w2 & Hrun & ->)]; [reflexivity|].
  apply upsert_lookup_ne.
  destruct (scoresArray_rows _ _ _ _ Hrun) as (_ & Hnames & _).
  rewrite Hnames, credited_spec. intros (t & Hin & Hc).
  destruct (Habsent t Hin) as [Hr Ha].
  unfold credits_reporter, credits_assignee in Hc.
  destruct Hc as [Hc|Hc]; apply andb_true_iff in Hc as [_ Hc];
    apply String.eqb_eq in Hc; done.
Qed.

Lemma updateUserScores_frame_witness :
  user_scores (db (updateUserScores (Sample.world Sample.store1 (inr []) [] [])).2) !! "zoe"
  = Some (finalize "2024-04-30T07:00:00.000Z" (Sample.user_with 3 4 20)).
Proof.
  rewrite (updateUserScores_frame (Sample.world Sample.store1 (inr []) [] []) "zoe").
  - reflexivity.
  - intros t Ht. vm_compute in Ht.
    apply elem_of_cons in Ht as [->|Ht]; [by split|].
    apply elem_of_cons in Ht as [->|Ht]; [by split|].
    by apply elem_of_nil in Ht.
Defined.

(** C10, as stated: a user whose tickets are gone from the source does not
    keep [updated_at].  A first sync fetches one done ticket assigned to
    bob; at the second sync the source returns no ticket.  The ticket is
    still in the store, so the second run computes bob's row again and
    stamps it with its own time. *)
Lemma resync_restamps_user_gone_from_source :
  let w0 := Sample.world Sample.empty_store (inr [Sample.ticketB]) []
              ["2024-05-01T10:00:00.000Z"; "2024-05-01T10:00:01.000Z";
               "2024-05-01T10:00:02.000Z"; "2024-05-01T10:00:03.000Z"] in
  let w1 := (syncBugathonData w0).2 in
  let next := Sample.world (db w1) (inr []) []
                ["2024-05-02T10:00:00.000Z"; "2024-05-02T10:00:01.000Z"] in
  let w2 := (syncBugathonData next).2 in
  (syncBugathonData w0).1 = Returned (Success 1)
  /\ (syncBugathonData next).1 = Returned (Success 0)
  /\ Score.updated_at <$> user_scores (db w1) !! "bob"
     = Some (Some "2024-05-01T10:00:01.000Z")
  /\ Score.updated_at <$> user_scores (db w2) !! "bob"
     = Some (Some "2024-05-02T10:00:00.000Z")
  /\ user_scores (db w2) !! "bob" <> user_scores (db w1) !! "bob".
Proof.
  intros w0 w1 next w2.
  repeat split; try (vm_compute; reflexivity).
  vm_compute. intros H. discriminate H.
Qed.

(** C9. The aggregator tells an unassigned ticket by the name "Unassigned"
    alone.  The normalizer writes that name for a ticket without assignee
    and for one whose assignee is so named; the scores do not depend on the
    status category or the assignee points of a ticket carrying it; and in
    the aggregator's output a row for "Unassigned" has no fixed bug and no
    assignee points, and is there only because that name reported a new
    bug. *)
Theorem unassigned_sentinel :
  (forall now raw,
      Jira.assignee (Jira.fields raw) = None \/
      (exists a, Jira.assignee (Jira.fields raw) = Some a /\
                 Jira.displayName a = "Unassigned") ->
      assignee_name (processTicket now raw) = "Unassigned")
  /\ (forall before t t' after,
        assignee_name t = "Unassigned" -> assignee_name t' = "Unassigned" ->
        is_new_bug t' = is_new_bug t -> reporter_name t' = reporter_name t ->
        reporter_points t' = reporter_points t ->
        scoresArray (before ++ t :: after) = scoresArray (before ++ t' :: after))
  /\ (forall tickets w rows w' row,
        scoresArray tickets w = (Returned rows, w') ->
        row ∈ rows -> Score.user_name row = "Unassigned" ->
        Score.bugs_fixed row = 0 /\ Score.assignee_points row = 0%Q
        /\ exists t, t ∈ tickets /\ is_new_bug t = true
                     /\ reporter_name t = "Unassigned").
Proof.
  split; [|split].
  - intros now raw [H|(a & H & Ha)]; unfold processTicket; simpl; rewrite H; [done|].
    by rewrite Ha.
  - intros before t t' after Ht Ht' Hnew Hrep Hpts.
    unfold scoresArray, accumulate. f_equal. f_equal.
    rewrite !foldl_app. simpl. f_equal.
    unfold scoreTicket. rewrite Ht, Ht', Hnew, Hrep, Hpts.
    by rewrite !andb_false_r.
  - intros tickets w rows w' row Hrun Hrow Hname.
    destruct (scoresArray_rows _ _ _ _ Hrun) as (_ & _ & Hrows).
    destruct (Hrows row Hrow) as (Hc & now & Heq). rewrite Hname in Hc, Heq.
    assert (Hnone : filter (credits_assignee "Unassigned") tickets = []).
    { clear. induction tickets as [|t l IH]; [done|].
      rewrite filter_cons, IH. unfold credits_assignee.
      destruct (String.eqb (assignee_name t) "Unassigned"); simpl;
        rewrite ?andb_false_r, ?andb_false_l; done. }
    subst row. simpl. rewrite Hnone. split; [done|]. split; [done|].
    apply credited_spec in Hc as (t & Hin & [Hc|Hc]).
    + exists t. split; [done|]. unfold credits_reporter in Hc.
      apply andb_true_iff in Hc as [Hc Hu]. apply andb_true_iff in Hc as [Hc _].
      by apply String.eqb_eq in Hu.
    + assert (Hf : t ∈ filter (credits_assignee "Unassigned") tickets)
        by (apply list_elem_of_filter; split; [by apply Is_true_true|done]).
      rewrite Hnone in Hf. by apply elem_of_nil in Hf.
Qed.

Lemma unassigned_sentinel_witness :
  assignee_name (processTicket "t0" Sample.ticketA) = "Unassigned"
  /\ assignee_name (processTicket "t0" Sample.ticketE) = "Unassigned"
  /\ scoresArray [processTicket "t0" Sample.ticketC] =
     scoresArray [processTicket "t0" Sample.ticketD]
  /\ exists row rows w',
       scoresArray [processTicket "t0" Sample.ticketE]
         (Sample.world Sample.empty_store (inr []) [] []) = (Returned (row :: rows), w')
       /\ Score.bugs_fixed row = 0.
Proof.
  destruct unassigned_sentinel as (Hname & Hsame & Hrow).
  split; [apply Hname; left; reflexivity|].
  split; [apply Hname; right; eexists; split; reflexivity|].
  split; [apply (Hsame [] _ _ []); reflexivity|].
  eexists _, _, _. split; [vm_compute; reflexivity|].
  eapply proj1.
  eapply (Hrow [processTicket "t0" Sample.ticketE]
            (Sample.world Sample.empty_store (inr []) [] []));
    [vm_compute; reflexivity|apply list_elem_of_here|reflexivity].
Defined.

(** *** Reads of the same tickets *)

Section ReadOrder.





End ReadOrder.



(** Decimal literals of doubles denote the nearest double. *)
#[local] Set Warnings "-inexact-float".


(** ** The daily statistics *)

Section DailyStats.

Lemma foldl_assignee_points (l : list Ticket) :
  foldl (fun sum t => (sum + assignee_points t)%Q) 0%Q l = sumQ (assignee_points <$> l).
Proof. unfold sumQ. by rewrite foldl_fmap. Qed.

Lemma upsert_one_lookup_ne (stat : Daily.DailyStat) (t : gmap string Daily.DailyStat) d :
  d <> Daily.date stat -> Table.upsert Daily.date [stat] t !! d = t !! d.
Proof. intros Hd. unfold Table.upsert. simpl. by rewrite lookup_insert_ne. Qed.

(** What a run of [updateDailyStats] does to the store. *)
Lemma updateDailyStats_effect w :
  let today := JS.split_first "T" (default "1970-01-01T00:00:00.000Z" (head (clock w))) in
  let A := filter (Table.created_since (db w) today) (Table.rows (bugathon_tickets (db w))) in
  let B := filter (Table.fixed_since (db w) today) (Table.rows (bugathon_tickets (db w))) in
  exists w',
    updateDailyStats w = (Returned tt, w')
    /\ (forall d, d <> today -> daily_stats (db w') !! d = daily_stats (db w) !! d)
    /\ bugathon_tickets (db w') = bugathon_tickets (db w)
    /\ user_scores (db w') = user_scores (db w)
    /\ achievements (db w') = achievements (db w)
    /\ (faults w = [] ->
        daily_stats (db w') !! today = Some (dailyStats today (Some A) (Some B))).
Proof.
  intros today A B.
  unfold updateDailyStats, bind at 1, new_Date. simpl. fold today.
  unfold bind at 1. store_call Hf1; simpl;
    (unfold bind at 1; store_call Hf2; simpl);
    (unfold bind at 1; store_call Hf3; simpl).
  all: eexists; split; [reflexivity|]; simpl.
  all: repeat split; try done.
  all: try (intros d Hd; apply upsert_one_lookup_ne; exact Hd).
  all: intros Hnil; simpl in *; rewrite Hnil in *; simpl in *; try done.
  unfold Table.upsert. simpl. rewrite lookup_insert_eq. reflexivity.
Qed.

End DailyStats.

(** C6. For the date [today] of the run (the text before "T" in the reading
    of the clock), with A the tickets of the store created on or after
    [today] and B the done tickets resolved on or after it, the stat built
    from A and B has [bugs_created] = |A|, [bugs_fixed] = |B|,
    [points_earned] = the sum of [assignee_points] over B and
    [active_users] = the size of the union of the reporter names of A and
    the assignee names of B.  A run writes no row of [daily_stats] other
    than the one of [today], touches no other table, and, when the store
    answers its calls, leaves exactly that stat under [today]. *)
Theorem updateDailyStats_spec (w : World) :
  let today := JS.split_first "T" (default "1970-01-01T00:00:00.000Z" (head (clock w))) in
  let A := filter (Table.created_since (db w) today) (Table.rows (bugathon_tickets (db w))) in
  let B := filter (Table.fixed_since (db w) today) (Table.rows (bugathon_tickets (db w))) in
  let stat := dailyStats today (Some A) (Some B) in
  let w' := (updateDailyStats w).2 in
  (Daily.date stat = today
   /\ Daily.bugs_created stat = length A
   /\ Daily.bugs_fixed stat = length B
   /\ (Daily.points_earned stat == sumQ (assignee_points <$> B))%Q
   /\ Daily.active_users stat =
        size (list_to_set (reporter_name <$> A) ∪ list_to_set (assignee_name <$> B)
              : gset string))
  /\ (updateDailyStats w).1 = Returned tt
  /\ (forall d, d <> today -> daily_stats (db w') !! d = daily_stats (db w) !! d)
  /\ bugathon_tickets (db w') = bugathon_tickets (db w)
  /\ user_scores (db w') = user_scores (db w)
  /\ achievements (db w') = achievements (db w)
  /\ (faults w = [] -> daily_stats (db w') !! today = Some stat).
Proof.
  intros today A B stat w'. split.
  { subst stat. unfold dailyStats. simpl.
    repeat split; try done.
    - rewrite foldl_assignee_points. apply num_or_zero.
    - by rewrite list_to_set_app_L. }
  subst w'.
  destruct (updateDailyStats_effect w) as (w' & -> & Hframe & Ht & Hs & Ha & Hrow).
  simpl. repeat split; done.
Qed.

Lemma updateDailyStats_spec_witness :
  daily_stats
    (db (updateDailyStats
           (Sample.world Sample.store1 (inr []) [] ["2024-05-01T10:00:00.000Z"])).2)
    !! "2024-05-01"
  = Some {| Daily.date := "2024-05-01"; Daily.bugs_created := 2;
            Daily.bugs_fixed := 1; Daily.points_earned := 8%Q;
            Daily.active_users := 3 |}.
Proof.
  destruct (updateDailyStats_spec
              (Sample.world Sample.store1 (inr []) [] ["2024-05-01T10:00:00.000Z"]))
    as (_ & _ & _ & _ & _ & _ & Hrow).
  refine (eq_trans (Hrow eq_refl) _). vm_compute. reflexivity.
Defined.
(** ** Achievements *)

Section Achievements.

Implicit Types (rows : list Achievement.Row) (r : Achievement.Row).

Lemma select_single_found userName badge st r :
  filter (Table.matches userName badge) (achievements st) = [r] ->
  Table.select_achievement_single userName badge st = (Table.ok (Some r), st).
Proof. unfold Table.select_achievement_single. by intros ->. Qed.

Lemma select_single_none userName badge st :
  (forall r, filter (Table.matches userName badge) (achievements st) <> [r]) ->
  data (Table.select_achievement_single userName badge st).1 = None
  /\ (Table.select_achievement_single userName badge st).2 = st.
Proof.
  unfold Table.select_achievement_single. intros H.
  destruct (filter _ _) as [|r [|r' l]]; try done. by destruct (H r).
Qed.

Lemma matches_granted userName badge description now u b :
  Table.matches u b (granted userName badge description now) = true ->
  u = userName /\ b = badge.
Proof.
  unfold Table.matches. simpl. intros H. apply andb_true_iff in H as [Hu Hb].
  apply String.eqb_eq in Hu, Hb. by subst.
Qed.

Lemma filter_matches_snoc u b rows r :
  filter (Table.matches u b) (rows ++ [r]) =
  filter (Table.matches u b) rows ++ (if Table.matches u b r then [r] else []).
Proof.
  rewrite filter_app, filter_cons, filter_nil.
  destruct (Table.matches u b r); simpl; try case_decide; done.
Qed.

Lemma at_most_one_found rows userName badge r :
  at_most_one_per_pair rows -> r ∈ rows -> Table.matches userName badge r = true ->
  exists r', filter (Table.matches userName badge) rows = [r'].
Proof.
  intros Hinv Hin Hm. specialize (Hinv userName badge).
  assert (Hf : r ∈ filter (Table.matches userName badge) rows)
    by (apply list_elem_of_filter; split; [by apply Is_true_true|done]).
  destruct (filter _ rows) as [|r' [|r'' l]]; simpl in *.
  - by apply elem_of_nil in Hf.
  - by exists r'.
  - lia.
Qed.

Lemma at_most_one_snoc rows userName badge description now :
  at_most_one_per_pair rows ->
  filter (Table.matches userName badge) rows = [] ->
  at_most_one_per_pair (rows ++ [granted userName badge description now]).
Proof.
  intros Hinv Hnone u b. rewrite filter_matches_snoc, length_app.
  destruct (Table.matches u b _) eqn:Hm; simpl.
  - apply matches_granted in Hm as [-> ->]. rewrite Hnone. simpl. lia.
  - specialize (Hinv u b). lia.
Qed.

(** What a run of [grantAchievement] does to the store. *)
Lemma grantAchievement_effect userName badge description w :
  let found := filter (Table.matches userName badge) (achievements (db w)) in
  let row := granted userName badge description
               (default "1970-01-01T00:00:00.000Z" (head (clock w))) in
  exists w',
    grantAchievement userName badge description w = (Returned tt, w')
    /\ bugathon_tickets (db w') = bugathon_tickets (db w)
    /\ user_scores (db w') = user_scores (db w)
    /\ daily_stats (db w') = daily_stats (db w)
    /\ (achievements (db w') = achievements (db w)
        \/ achievements (db w') = achievements (db w) ++ [row])
    /\ (answered w -> (exists r, found = [r]) -> db w' = db w)
    /\ (answered w -> (forall r, found <> [r]) ->
        achievements (db w') = achievements (db w)
        \/ achievements (db w') = achievements (db w) ++ [row])
    /\ (faults w = [] -> faults w' = [])
    /\ (faults w = [] -> (forall r, found <> [r]) ->
        achievements (db w') = achievements (db w) ++ [row]).
Proof.
  intros found row. unfold grantAchievement, bind at 1. store_call Hf; simpl.
  - unfold bind at 1, new_Date. simpl. unfold bind at 1. store_call Hf2; simpl.
    all: eexists; split; [reflexivity|]; simpl.
    all: repeat split; try done; try (by left); try (by right).
    all: try (intros Ha; by destruct (Ha e)).
    all: intros Hnil; rewrite Hnil in *; done.
  - destruct (filter (Table.matches userName badge) (achievements (db w)))
      as [|r [|r' l]] eqn:Hfound.
    + destruct (select_single_none userName badge (db w)) as [Hd Hs];
        [by rewrite Hfound|].
      rewrite Hd, Hs. unfold bind at 1, new_Date. simpl.
      unfold bind at 1. store_call Hf2; simpl.
      all: eexists; split; [reflexivity|]; simpl.
      all: subst found; rewrite ?Hfound.
      all: repeat split; try done; try (by left); try (by right).
      all: try (intros _ [r Hr]; done).
      all: try (intros Hnil; simpl in *; rewrite Hnil in *; done).
      all: try (intros Hnil _; simpl in *; rewrite Hnil in *; done).
    + rewrite (select_single_found _ _ _ _ Hfound). simpl.
      eexists; split; [reflexivity|]; simpl.
      subst found; rewrite ?Hfound.
      repeat split; try done; try (by left).
      * intros Hnil. by rewrite Hnil.
      * intros _ H. by destruct (H r).
    + destruct (select_single_none userName badge (db w)) as [Hd Hs];
        [by rewrite Hfound|].
      rewrite Hd, Hs. unfold bind at 1, new_Date. simpl.
      unfold bind at 1. store_call Hf2; simpl.
      all: eexists; split; [reflexivity|]; simpl.
      all: subst found; rewrite ?Hfound.
      all: repeat split; try done; try (by left); try (by right).
      all: try (intros _ [r0 Hr]; done).
      all: try (intros Hnil; simpl in *; rewrite Hnil in *; done).
      all: try (intros Hnil _; simpl in *; rewrite Hnil in *; done).
Qed.

End Achievements.

(** Granting on a store that answers.  Granting only ever appends to
    [achievements], so rows already stored keep all their fields.  When the
    store answers the lookup and holds at most one row per pair of user and
    badge, granting a pair that has a row changes nothing in the store, and
    in every case at most one row per pair is left.  Granting a pair without
    a row twice, on a store that answers, leaves exactly one row for it,
    with the [earned_at] read at the first grant, and the second grant
    changes nothing. *)
Theorem grantAchievement_idempotent (w : World) (userName badge description : string) :
  let w' := (grantAchievement userName badge description w).2 in
  (exists added, achievements (db w') = achievements (db w) ++ added)
  /\ (answered w -> at_most_one_per_pair (achievements (db w)) ->
      (forall r, r ∈ achievements (db w) ->
                 Table.matches userName badge r = true -> db w' = db w)
      /\ at_most_one_per_pair (achievements (db w')))
  /\ (faults w = [] ->
      filter (Table.matches userName badge) (achievements (db w)) = [] ->
      forall description2,
        let w'' := (grantAchievement userName badge description2 w').2 in
        exists row,
          filter (Table.matches userName badge) (achievements (db w'')) = [row]
          /\ Achievement.earned_at row =
               default "1970-01-01T00:00:00.000Z" (head (clock w))
          /\ db w'' = db w').
Proof.
  intros w'. subst w'.
  destruct (grantAchievement_effect userName badge description w)
    as (w' & -> & _ & _ & _ & Happend & Hfound & Hnone & Hfaults & Hins).
  simpl. split; [|split].
  - destruct Happend as [Heq|Heq]; rewrite Heq.
    + exists []. by rewrite app_nil_r.
    + by eexists.
  - intros Hans Hinv. split.
    + intros r Hin Hm. apply Hfound; [done|].
      by eapply at_most_one_found.
    + destruct (filter (Table.matches userName badge) (achievements (db w)))
        as [|r [|r' l]] eqn:Hf.
      * destruct Hnone as [->| ->]; try done. by apply at_most_one_snoc.
      * rewrite Hfound; eauto.
      * specialize (Hinv userName badge). rewrite Hf in Hinv. simpl in Hinv. lia.
  - intros Hnil Hempty description2.
    rewrite Hempty in Hins. rewrite Hins in * by done.
    set (row := granted userName badge description _) in *.
    assert (Hrow : filter (Table.matches userName badge) (achievements (db w')) = [row]).
    { rewrite Hins by done. rewrite filter_matches_snoc, Hempty.
      unfold Table.matches, row. simpl. by rewrite !String.eqb_refl. }
    destruct (grantAchievement_effect userName badge description2 w')
      as (w'' & -> & _ & _ & _ & _ & Hfound2 & _).
    simpl. assert (Hsame : db w'' = db w').
    { apply Hfound2; [|by exists row].
      intros e. rewrite (Hfaults Hnil). simpl. done. }
    exists row. by rewrite Hsame.
Qed.

Lemma grantAchievement_idempotent_witness :
  let w := Sample.world Sample.empty_store (inr []) []
             ["2024-05-01T10:00:00.000Z"; "2024-05-02T10:00:00.000Z"] in
  let w' := (grantAchievement "alice" Label.current_champion "Leading the bugathon!" w).2 in
  let w'' := (grantAchievement "alice" Label.current_champion "Leading the bugathon!" w').2 in
  at_most_one_per_pair (achievements (db w'))
  /\ exists row,
       filter (Table.matches "alice" Label.current_champion) (achievements (db w'')) = [row]
       /\ Achievement.earned_at row = "2024-05-01T10:00:00.000Z"
       /\ db w'' = db w'.
Proof.
  intros w w' w''.
  destruct (grantAchievement_idempotent w "alice" Label.current_champion
              "Leading the bugathon!") as (_ & Hinv & Htwice).
  split.
  - apply Hinv; [intros e; discriminate|intros u b; simpl; lia].
  - apply (Htwice eq_refl eq_refl "Leading the bugathon!").
Defined.

(** C7 (failing input). The store holds one champion row of alice, granted
    on the first of May, and so at most one row per pair.  A grant of the
    same pair on the second of May whose lookup the store fails, and whose
    insert it answers, returns normally and inserts a second row for the
    pair: the failed lookup has no data, and [grantAchievement], which never
    looks at the answer's error, takes that for "no such row". *)
Theorem grantAchievement_failed_lookup :
  let row := granted "alice" Label.current_champion "Leading the bugathon!" in
  let st := Table.set_achievements [row "2024-05-01T10:00:00.000Z"] Sample.empty_store in
  let w := Sample.world st (inr []) [Some Sample.boom; None]
             ["2024-05-02T10:00:00.000Z"] in
  let run := grantAchievement "alice" Label.current_champion "Leading the bugathon!" w in
  at_most_one_per_pair (achievements st)
  /\ run.1 = Returned tt
  /\ achievements (db run.2) =
       [row "2024-05-01T10:00:00.000Z"; row "2024-05-02T10:00:00.000Z"]
  /\ length (filter (Table.matches "alice" Label.current_champion)
               (achievements (db run.2))) = 2
  /\ ~ at_most_one_per_pair (achievements (db run.2))
  /\ trace run.2 = [Select "achievements"; Insert "achievements"].
Proof.
  intros row st w run. split.
  { intros u b. etrans; [apply length_filter|]. simpl. lia. }
  split; [vm_compute; reflexivity|].
  split; [vm_compute; reflexivity|].
  split; [vm_compute; reflexivity|].
  split; [|vm_compute; reflexivity].
  intros H. specialize (H "alice" Label.current_champion).
  vm_compute in H. lia.
Qed.

(** ** The orchestrator *)

Section Orchestrator.

Lemma normalize_all_run (l : list Jira.JiraTicket) : forall w,
  exists times,
    length times = length l /\
    mapM normalizeNow l w =
      (Returned (zip_with processTicket times l),
       with_clock (drop (length l) (clock w)) w).
Proof.
  induction l as [|t l IH]; intros w.
  - exists []. split; [done|]. simpl. unfold ret. by rewrite drop_0, with_clock_same.
  - rewrite mapM_cons.
    change (normalizeNow t w) with
      (Returned (processTicket (default "1970-01-01T00:00:00.000Z" (head (clock w))) t),
       with_clock (tail (clock w)) w).
    destruct (IH (with_clock (tail (clock w)) w)) as (times & Hlen & ->).
    exists (default "1970-01-01T00:00:00.000Z" (head (clock w)) :: times).
    split; [simpl; by rewrite Hlen|].
    simpl. rewrite with_clock_twice. do 2 f_equal.
    destruct (clock w); simpl; by rewrite ?drop_nil.
Qed.

(** [processTickets] throws exactly the error the store answers its upsert
    with. *)
Lemma processTickets_cases tickets w :
  exists w',
    processTickets tickets w =
    (match head (faults w) with
     | Some (Some e) => Thrown e
     | _ => Returned tt
     end, w').
Proof.
  unfold processTickets, bind at 1.
  destruct (normalize_all_run tickets w) as (times & _ & ->).
  unfold bind at 1, supabase. simpl.
  destruct (head (faults w)) as [[e|]|]; simpl; by eexists.
Qed.

Lemma checkAchievements_returns w :
  exists w', checkAchievements w = (Returned tt, w').
Proof.
  unfold checkAchievements, bind at 1. store_call Hf; simpl; [by eexists|].
  destruct (merge_sort _ _) as [|first rest]; [by eexists|].
  match goal with
  | |- context [grantAchievement ?u ?b ?d ?w1] =>
      destruct (grantAchievement_effect u b d w1) as (w' & -> & _)
  end.
  by eexists.
Qed.

(** Once the tickets are fetched and their upsert is answered, the run
    reports success whatever the later store calls answer. *)
Lemma later_failures_unreported w tickets :
  jira w = inr tickets -> answered w ->
  (syncBugathonData w).1 = Returned (Success (length tickets)).
Proof.
  intros Hj Hans. unfold syncBugathonData, try_catch, bind at 1, fetchJiraTickets.
  rewrite Hj. unfold bind at 1.
  destruct (processTickets_cases tickets (log JiraSearch w)) as (w2 & ->). simpl.
  assert (Hok : match head (faults w) with
                | Some (Some e) => Thrown e
                | _ => Returned tt
                end = Returned tt).
  { destruct (head (faults w)) as [[e|]|] eqn:Hf; try done. by destruct (Hans e). }
  rewrite Hok.
  unfold bind at 1.
  destruct (updateUserScores_effect w2) as (w3 & -> & _).
  unfold bind at 1.
  destruct (updateDailyStats_effect w3) as (w4 & -> & _).
  unfold bind at 1.
  destruct (checkAchievements_returns w4) as (w5 & ->).
  reflexivity.
Qed.

End Orchestrator.

(** C5. [syncBugathonData] always returns a result.  When fetching throws,
    or fetching returns and the normalize-and-write step throws, the result
    is failure with the error thrown, in the world that step left: no later
    step has run and none has run again.  Otherwise the three remaining
    steps return in turn and the result is success with the number of
    fetched tickets.  The same holds of the orchestration whatever its five
    steps are: the first step to throw decides the result and ends the
    run. *)
Theorem syncBugathonData_result (w : World) :
  (exists result w', syncBugathonData w = (Returned result, w'))
  /\ (forall e w1,
        fetchJiraTickets w = (Thrown e, w1) ->
        syncBugathonData w = (Returned (Failure e), w1))
  /\ (forall tickets w1 e w2,
        fetchJiraTickets w = (Returned tickets, w1) ->
        processTickets tickets w1 = (Thrown e, w2) ->
        syncBugathonData w = (Returned (Failure e), w2))
  /\ (forall tickets w1 w2,
        fetchJiraTickets w = (Returned tickets, w1) ->
        processTickets tickets w1 = (Returned tt, w2) ->
        exists w3 w4 w5,
          updateUserScores w2 = (Returned tt, w3)
          /\ updateDailyStats w3 = (Returned tt, w4)
          /\ checkAchievements w4 = (Returned tt, w5)
          /\ syncBugathonData w = (Returned (Success (length tickets)), w5))
  /\ syncBugathonData =
       orchestrate fetchJiraTickets processTickets updateUserScores
         updateDailyStats checkAchievements
  /\ (forall fetch process score daily achieve,
        let run := orchestrate fetch process score daily achieve in
        (forall e w1, fetch w = (Thrown e, w1) -> run w = (Returned (Failure e), w1))
        /\ (forall tickets w1 e w2,
              fetch w = (Returned tickets, w1) ->
              process tickets w1 = (Thrown e, w2) ->
              run w = (Returned (Failure e), w2))
        /\ (forall tickets w1 w2 e w3,
              fetch w = (Returned tickets, w1) ->
              process tickets w1 = (Returned tt, w2) ->
              score w2 = (Thrown e, w3) ->
              run w = (Returned (Failure e), w3))
        /\ (forall tickets w1 w2 w3 e w4,
              fetch w = (Returned tickets, w1) ->
              process tickets w1 = (Returned tt, w2) ->
              score w2 = (Returned tt, w3) ->
              daily w3 = (Thrown e, w4) ->
              run w = (Returned (Failure e), w4))
        /\ (forall tickets w1 w2 w3 w4 e w5,
              fetch w = (Returned tickets, w1) ->
              process tickets w1 = (Returned tt, w2) ->
              score w2 = (Returned tt, w3) ->
              daily w3 = (Returned tt, w4) ->
              achieve w4 = (Thrown e, w5) ->
              run w = (Returned (Failure e), w5))
        /\ (forall tickets w1 w2 w3 w4 w5,
              fetch w = (Returned tickets, w1) ->
              process tickets w1 = (Returned tt, w2) ->
              score w2 = (Returned tt, w3) ->
              daily w3 = (Returned tt, w4) ->
              achieve w4 = (Returned tt, w5) ->
              run w = (Returned (Success (length tickets)), w5))).
Proof.
  assert (Hgen : forall fetch process score daily achieve,
            let run := orchestrate fetch process score daily achieve in
            (forall e w1, fetch w = (Thrown e, w1) -> run w = (Returned (Failure e), w1))
            /\ (forall tickets w1 e w2,
                  fetch w = (Returned tickets, w1) ->
                  process tickets w1 = (Thrown e, w2) ->
                  run w = (Returned (Failure e), w2))
            /\ (forall tickets w1 w2 e w3,
                  fetch w = (Returned tickets, w1) ->
                  process tickets w1 = (Returned tt, w2) ->
                  score w2 = (Thrown e, w3) ->
                  run w = (Returned (Failure e), w3))
            /\ (forall tickets w1 w2 w3 e w4,
                  fetch w = (Returned tickets, w1) ->
                  process tickets w1 = (Returned tt, w2) ->
                  score w2 = (Returned tt, w3) ->
                  daily w3 = (Thrown e, w4) ->
                  run w = (Returned (Failure e), w4))
            /\ (forall tickets w1 w2 w3 w4 e w5,
                  fetch w = (Returned tickets, w1) ->
                  process tickets w1 = (Returned tt, w2) ->
                  score w2 = (Returned tt, w3) ->
                  daily w3 = (Returned tt, w4) ->
                  achieve w4 = (Thrown e, w5) ->
                  run w = (Returned (Failure e), w5))
            /\ (forall tickets w1 w2 w3 w4 w5,
                  fetch w = (Returned tickets, w1) ->
                  process tickets w1 = (Returned tt, w2) ->
                  score w2 = (Returned tt, w3) ->
                  daily w3 = (Returned tt, w4) ->
                  achieve w4 = (Returned tt, w5) ->
                  run w = (Returned (Success (length tickets)), w5))).
  { intros fetch process score daily achieve run. subst run.
    unfold orchestrate, try_catch.
    repeat split; intros.
    all: unfold bind at 1;
      repeat match goal with
        | H : _ = (_, _) |- _ => rewrite H; clear H; try unfold bind at 1
        end; reflexivity. }
  destruct (Hgen fetchJiraTickets processTickets updateUserScores
              updateDailyStats checkAchievements)
    as (Hfetch & Hprocess & _ & _ & _ & Hok).
  split.
  { unfold syncBugathonData, try_catch.
    destruct (bind _ _ w) as [[result|e] w']; by eexists _, _. }
  split; [exact Hfetch|]. split; [exact Hprocess|]. split.
  { intros tickets w1 w2 H1 H2.
    destruct (updateUserScores_effect w2) as (w3 & H3 & _).
    destruct (updateDailyStats_effect w3) as (w4 & H4 & _).
    destruct (checkAchievements_returns w4) as (w5 & H5).
    exists w3, w4, w5. repeat split; try done. by eapply Hok. }
  split; [reflexivity|exact Hgen].
Qed.

Lemma syncBugathonData_result_witness :
  (let run :=
     syncBugathonData
       (Sample.world Sample.empty_store (inl (AxiosError "timeout")) [] []) in
   run.1 = Returned (Failure (AxiosError "timeout"))
   /\ trace run.2 = [JiraSearch])
  /\ (let run :=
        syncBugathonData
          (Sample.world Sample.empty_store (inr [Sample.ticketA; Sample.ticketB])
             [Some Sample.boom] []) in
      run.1 = Returned (Failure Sample.boom)
      /\ trace run.2 = [JiraSearch; Upsert "bugathon_tickets"])
  /\ (syncBugathonData
        (Sample.world Sample.empty_store (inr [Sample.ticketA; Sample.ticketB]) [] [])).1
     = Returned (Success 2)
  /\ (let run :=
        orchestrate fetchJiraTickets processTickets updateUserScores
          (throw Sample.boom) checkAchievements
          (Sample.world Sample.empty_store (inr [Sample.ticketA; Sample.ticketB]) [] []) in
      run.1 = Returned (Failure Sample.boom)
      /\ trace run.2 =
           [JiraSearch; Upsert "bugathon_tickets"; Select "bugathon_tickets";
            Upsert "user_scores"]).
Proof.
  split; [|split; [|split]].
  - destruct (syncBugathonData_result
                (Sample.world Sample.empty_store (inl (AxiosError "timeout")) [] []))
      as (_ & Hfetch & _).
    cbv zeta. erewrite Hfetch; cycle 1; [reflexivity|split; reflexivity].
  - destruct (syncBugathonData_result
                (Sample.world Sample.empty_store (inr [Sample.ticketA; Sample.ticketB])
                   [Some Sample.boom] []))
      as (_ & _ & Hprocess & _).
    cbv zeta. erewrite Hprocess; cycle 1;
      [reflexivity|vm_compute; reflexivity|split; reflexivity].
  - destruct (syncBugathonData_result
                (Sample.world Sample.empty_store (inr [Sample.ticketA; Sample.ticketB]) [] []))
      as (_ & _ & _ & Hok & _).
    destruct (Hok [Sample.ticketA; Sample.ticketB]
                (log JiraSearch
                   (Sample.world Sample.empty_store
                      (inr [Sample.ticketA; Sample.ticketB]) [] []))
                (processTickets [Sample.ticketA; Sample.ticketB]
                   (log JiraSearch
                      (Sample.world Sample.empty_store
                         (inr [Sample.ticketA; Sample.ticketB]) [] []))).2)
      as (w3 & w4 & w5 & _ & _ & _ & Hrun); [reflexivity|vm_compute; reflexivity|].
    by rewrite Hrun.
  - destruct (syncBugathonData_result
                (Sample.world Sample.empty_store (inr [Sample.ticketA; Sample.ticketB]) [] []))
      as (_ & _ & _ & _ & _ & Hgen).
    destruct (Hgen fetchJiraTickets processTickets updateUserScores
                (throw Sample.boom) checkAchievements)
      as (_ & _ & _ & Hdaily & _).
    cbv zeta. erewrite Hdaily; cycle 1;
      [reflexivity|vm_compute; reflexivity|vm_compute; reflexivity|reflexivity
       |split; reflexivity].
Defined.

(** C4 (failing inputs). With the ticket source answering two tickets and
    the store answering the ticket upsert, a run reports success although
    the store fails the read of the tickets in [updateUserScores], or the
    upsert of the user scores, or the upsert of the daily stats, or the
    insert of the achievement, and what that call should have written is
    missing; after the failed read the later steps still run.  Only the
    failed upsert of the tickets is reported. *)
Theorem store_failures_reported_as_success :
  let run fs :=
    syncBugathonData
      (Sample.world Sample.empty_store (inr [Sample.ticketA; Sample.ticketB]) fs []) in
  ((run [None; Some Sample.boom]).1 = Returned (Success 2)
   /\ user_scores (db (run [None; Some Sample.boom]).2) = ∅
   /\ trace (run [None; Some Sample.boom]).2 =
        [JiraSearch; Upsert "bugathon_tickets"; Select "bugathon_tickets";
         Select "bugathon_tickets"; Select "bugathon_tickets";
         Upsert "daily_stats"; Select "user_scores"])
  /\ ((run [None; None; Some Sample.boom]).1 = Returned (Success 2)
      /\ user_scores (db (run [None; None; Some Sample.boom]).2) = ∅)
  /\ ((run [None; None; None; None; None; Some Sample.boom]).1 = Returned (Success 2)
      /\ daily_stats (db (run [None; None; None; None; None; Some Sample.boom]).2) = ∅)
  /\ ((run [None; None; None; None; None; None; None; None; Some Sample.boom]).1
        = Returned (Success 2)
      /\ achievements
           (db (run [None; None; None; None; None; None; None; None;
                     Some Sample.boom]).2) = [])
  /\ (run [Some Sample.boom]).1 = Returned (Failure Sample.boom).
Proof. intros run. subst run. repeat split; vm_compute; reflexivity. Qed.

(** ** The ticket store writer *)

Section TicketWriter.

Lemma normalized_keys times (l : list Jira.JiraTicket) :
  length times = length l ->
  key <$> zip_with processTicket times l = Jira.key <$> l.
Proof.
  revert times. induction l as [|t l IH]; intros [|now times] Hlen; try done.
  simpl. f_equal. apply IH. by injection Hlen.
Qed.

Lemma elem_of_normalized times (l : list Jira.JiraTicket) raw :
  length times = length l -> raw ∈ l ->
  exists now, processTicket now raw ∈ zip_with processTicket times l.
Proof.
  intros Hlen Hin. apply list_elem_of_lookup in Hin as [i Hi].
  destruct (lookup_lt_is_Some_2 times i) as [now Hnow].
  { rewrite Hlen. by eapply lookup_lt_Some. }
  exists now. apply list_elem_of_lookup. exists i.
  by rewrite lookup_zip_with, Hnow, Hi.
Qed.

(** An answered write puts the normalized batch into the table. *)
Lemma processTickets_answered tickets w :
  answered w ->
  exists times w',
    length times = length tickets
    /\ processTickets tickets w = (Returned tt, w')
    /\ db w' =
       Table.set_tickets
         (Table.upsert key (zip_with processTicket times tickets)
            (bugathon_tickets (db w))) (db w)
    /\ faults w' = tail (faults w).
Proof.
  intros Hans. unfold processTickets, bind at 1.
  destruct (normalize_all_run tickets w) as (times & Hlen & ->).
  unfold bind at 1. store_call Hf; simpl.
  - simpl in Hf. by destruct (Hans e).
  - exists times. eexists. repeat split; done.
Qed.

(** The effect of an answered write of tickets with distinct keys. *)
Lemma processTickets_write tickets w :
  answered w -> NoDup (Jira.key <$> tickets) ->
  exists w',
    processTickets tickets w = (Returned tt, w')
    /\ (forall raw, raw ∈ tickets ->
          exists now,
            bugathon_tickets (db w') !! Jira.key raw = Some (processTicket now raw))
    /\ (forall k, k ∉ Jira.key <$> tickets ->
          bugathon_tickets (db w') !! k = bugathon_tickets (db w) !! k)
    /\ user_scores (db w') = user_scores (db w)
    /\ daily_stats (db w') = daily_stats (db w)
    /\ achievements (db w') = achievements (db w).
Proof.
  intros Hans Hnd.
  destruct (processTickets_answered tickets w Hans) as (times & w' & Hlen & Hrun & Hdb & _).
  exists w'. split; [exact Hrun|]. rewrite Hdb. simpl.
  repeat split.
  - intros raw Hin.
    destruct (elem_of_normalized times tickets raw Hlen Hin) as (now & Hrow).
    exists now.
    apply (upsert_lookup key _ (bugathon_tickets (db w)) (processTicket now raw));
      [|exact Hrow].
    by rewrite normalized_keys.
  - intros k Hk. apply upsert_lookup_ne. by rewrite normalized_keys.
Qed.

End TicketWriter.

(** X1. When the store answers the upsert and the fetched tickets have
    pairwise distinct keys, [processTickets] returns, every fetched ticket
    is stored under its key as the normalizer writes it, every row under
    another key is as before, and no other table changes. *)
Theorem processTickets_stores (tickets : list Jira.JiraTicket) (w : World) :
  answered w -> NoDup (Jira.key <$> tickets) ->
  exists w',
    processTickets tickets w = (Returned tt, w')
    /\ (forall raw, raw ∈ tickets ->
          exists now,
            bugathon_tickets (db w') !! Jira.key raw = Some (processTicket now raw))
    /\ (forall k, k ∉ Jira.key <$> tickets ->
          bugathon_tickets (db w') !! k = bugathon_tickets (db w) !! k)
    /\ user_scores (db w') = user_scores (db w)
    /\ daily_stats (db w') = daily_stats (db w)
    /\ achievements (db w') = achievements (db w).
Proof. apply processTickets_write. Qed.

Lemma processTickets_stores_witness :
  exists now,
    bugathon_tickets
      (db (processTickets [Sample.ticketA; Sample.ticketB]
             (Sample.world Sample.store1 (inr []) [] [])).2) !! "BUG-2"
    = Some (processTicket now Sample.ticketB).
Proof.
  destruct (processTickets_stores [Sample.ticketA; Sample.ticketB]
              (Sample.world Sample.store1 (inr []) [] []))
    as (w' & Hrun & Hstored & _).
  - intros e. discriminate.
  - apply (bool_decide_unpack _). vm_compute. exact I.
  - rewrite Hrun. apply (Hstored Sample.ticketB). repeat constructor.
Defined.

(** X2. Writing the same fetched tickets a second time changes nothing in
    the ticket table but the [last_updated] stamps. *)
Theorem processTickets_twice (tickets : list Jira.JiraTicket) (w : World) :
  faults w = [] -> NoDup (Jira.key <$> tickets) ->
  let w1 := (processTickets tickets w).2 in
  let w2 := (processTickets tickets w1).2 in
  forall k,
    without_last_updated <$> bugathon_tickets (db w2) !! k
    = without_last_updated <$> bugathon_tickets (db w1) !! k.
Proof.
  intros Hf Hnd w1 w2 k. subst w1 w2.
  assert (Hans : answered w) by (intros e; by rewrite Hf).
  destruct (processTickets_answered tickets w Hans) as (times & w1 & Hlen & Hrun & Hdb & Hf1).
  rewrite Hrun. simpl.
  assert (Hans1 : answered w1) by (intros e; by rewrite Hf1, Hf).
  destruct (processTickets_write tickets w1 Hans1 Hnd) as (w2 & Hrun2 & Hstored2 & Hframe2 & _).
  rewrite Hrun2. simpl.
  destruct (decide (k ∈ Jira.key <$> tickets)) as [Hin|Hout]; [|by rewrite Hframe2].
  apply list_elem_of_fmap in Hin as (raw & -> & Hraw).
  destruct (Hstored2 raw Hraw) as (now2 & ->).
  destruct (elem_of_normalized times tickets raw Hlen Hraw) as (now1 & Hrow).
  rewrite Hdb. simpl.
  rewrite (upsert_lookup key _ (bugathon_tickets (db w)) (processTicket now1 raw));
    [done| by rewrite normalized_keys | exact Hrow].
Qed.

Lemma processTickets_twice_witness :
  let w := Sample.world Sample.empty_store (inr []) []
             ["2024-05-01T10:00:00.000Z"; "2024-05-01T10:00:01.000Z";
              "2024-05-02T10:00:00.000Z"; "2024-05-02T10:00:01.000Z"] in
  let w1 := (processTickets [Sample.ticketA; Sample.ticketB] w).2 in
  let w2 := (processTickets [Sample.ticketA; Sample.ticketB] w1).2 in
  without_last_updated <$> bugathon_tickets (db w2) !! "BUG-1"
  = without_last_updated <$> bugathon_tickets (db w1) !! "BUG-1".
Proof.
  intros w w1 w2.
  apply (processTickets_twice [Sample.ticketA; Sample.ticketB] w eq_refl).
  apply (bool_decide_unpack _). vm_compute. exact I.
Defined.

(** ** Conservation and order independence of the counts *)

Section Counts.

Implicit Types (m : gmap string Score.UserScore) (g : Score.UserScore -> nat).

Lemma rows_insert_fresh m k x :
  m !! k = None -> Table.rows (<[k := x]> m) ≡ₚ x :: Table.rows m.
Proof.
  intros Hk. unfold Table.rows.
  by rewrite (map_to_list_insert m k x Hk).
Qed.

Lemma rows_alter m f k x :
  m !! k = Some x ->
  Table.rows (alter f k m) ≡ₚ f x :: Table.rows (delete k m)
  /\ Table.rows m ≡ₚ x :: Table.rows (delete k m).
Proof.
  intros Hk.
  assert (Halter : alter f k m = <[k := f x]> (delete k m)).
  { apply map_eq. intros j. destruct (decide (k = j)) as [->|Hne].
    - by rewrite lookup_alter_eq, lookup_insert_eq, Hk.
    - by rewrite lookup_alter_ne, lookup_insert_ne, lookup_delete_ne. }
  split.
  - rewrite Halter. apply rows_insert_fresh, lookup_delete_eq.
  - unfold Table.rows. by rewrite <- (map_to_list_delete m k x Hk).
Qed.

Lemma total_of_seed g k m :
  g (fresh_score k) = 0 -> total_of g (seed k m) = total_of g m.
Proof.
  intros Hg. unfold seed, total_of. destruct (m !! k) eqn:Hk; [done|].
  rewrite (rows_insert_fresh m k _ Hk). simpl. by rewrite Hg.
Qed.

Lemma total_of_alter g f k m x :
  m !! k = Some x -> total_of g (alter f k m) + g x = total_of g m + g (f x).
Proof.
  intros Hk. destruct (rows_alter m f k x Hk) as [Ha Hm].
  unfold total_of. rewrite Ha, Hm. simpl. lia.
Qed.

Lemma seed_lookup_self k m : is_Some (seed k m !! k).
Proof. rewrite seed_lookup, decide_True by done. eauto. Qed.

(** One ticket adds to the sum of a counter what it adds to one accumulator. *)
Lemma total_of_credit g f k m (d : nat) :
  g (fresh_score k) = 0 -> (forall x, g (f x) = g x + d) ->
  total_of g (alter f k (seed k m)) = total_of g m + d.
Proof.
  intros Hg Hf. destruct (seed_lookup_self k m) as [x Hx].
  pose proof (total_of_alter g f k _ x Hx) as H.
  rewrite Hf, (total_of_seed g k m Hg) in H. lia.
Qed.

Lemma total_reported_step m t :
  total_of Score.bugs_reported (scoreTicket m t) =
  total_of Score.bugs_reported m + (if counts_as_reported t then 1 else 0).
Proof.
  unfold scoreTicket, counts_as_reported.
  destruct (String.eqb (status_category t) "done"
            && negb (String.eqb (assignee_name t) "Unassigned"));
    destruct (is_new_bug t && negb (String.eqb (reporter_name t) ""));
    rewrite ?(total_of_credit Score.bugs_reported _ _ _ 0) by (done || (intros; simpl; lia));
    rewrite ?(total_of_credit Score.bugs_reported _ _ _ 1) by (done || (intros; simpl; lia));
    lia.
Qed.

Lemma total_fixed_step m t :
  total_of Score.bugs_fixed (scoreTicket m t) =
  total_of Score.bugs_fixed m + (if counts_as_fixed t then 1 else 0).
Proof.
  unfold scoreTicket, counts_as_fixed.
  destruct (String.eqb (status_category t) "done"
            && negb (String.eqb (assignee_name t) "Unassigned"));
    destruct (is_new_bug t && negb (String.eqb (reporter_name t) ""));
    rewrite ?(total_of_credit Score.bugs_fixed _ _ _ 1) by (done || (intros; simpl; lia));
    rewrite ?(total_of_credit Score.bugs_fixed _ _ _ 0) by (done || (intros; simpl; lia));
    lia.
Qed.

Lemma length_filter_snoc (p : Ticket -> bool) l t :
  length (filter p (l ++ [t])) = length (filter p l) + (if p t then 1 else 0).
Proof.
  rewrite filter_app, length_app, filter_singleton_bool. by destruct (p t).
Qed.

Lemma total_of_accumulate tickets :
  total_of Score.bugs_reported (accumulate tickets) = length (filter counts_as_reported tickets)
  /\ total_of Score.bugs_fixed (accumulate tickets) = length (filter counts_as_fixed tickets).
Proof.
  unfold accumulate. induction tickets as [|t l [IHr IHf]] using rev_ind; [done|].
  rewrite foldl_app. simpl.
  rewrite total_reported_step, total_fixed_step, !length_filter_snoc. lia.
Qed.

Lemma stamped_sum g times (l : list Score.UserScore) :
  (forall now s, g (finalize now s) = g s) -> length times = length l ->
  sum_list_with g (zip_with finalize times l) = sum_list_with g l.
Proof.
  intros Hg. revert times. induction l as [|s l IH]; intros [|now times] Hlen; try done.
  simpl. rewrite Hg, IH; [done|]. by injection Hlen.
Qed.

Lemma credited_Permutation u l1 l2 : l1 ≡ₚ l2 -> credited u l1 = credited u l2.
Proof.
  intros Hp.
  assert (H : credited u l1 = true <-> credited u l2 = true).
  { rewrite !credited_spec. split; intros (t & Hin & Hc); exists t; split; try done.
    - by rewrite <- Hp.
    - by rewrite Hp. }
  destruct (credited u l1), (credited u l2); try done.
  - symmetry. by apply H.
  - by apply H.
Qed.

End Counts.

(** X3. No ticket is counted twice or lost: over the rows the aggregator
    computes, the [bugs_reported] add up to the number of new-bug tickets
    with a reporter name, and the [bugs_fixed] to the number of done tickets
    whose assignee name is not "Unassigned". *)
Theorem scoresArray_conserves_counts (tickets : list Ticket) (w : World) rows w' :
  scoresArray tickets w = (Returned rows, w') ->
  sum_list_with Score.bugs_reported rows = length (filter counts_as_reported tickets)
  /\ sum_list_with Score.bugs_fixed rows = length (filter counts_as_fixed tickets).
Proof.
  destruct (scoresArray_run tickets w) as (times & Hlen & ->). intros [= <- _].
  rewrite !stamped_sum by done. apply total_of_accumulate.
Qed.

Lemma scoresArray_conserves_counts_witness :
  exists rows,
    (scoresArray (Table.rows (bugathon_tickets Sample.store1))
       (Sample.world Sample.store1 (inr []) [] [])).1 = Returned rows
    /\ sum_list_with Score.bugs_reported rows = 1
    /\ sum_list_with Score.bugs_fixed rows = 1.
Proof.
  eexists. split; [vm_compute; reflexivity|].
  refine (scoresArray_conserves_counts (Table.rows (bugathon_tickets Sample.store1))
            (Sample.world Sample.store1 (inr []) [] []) _ _ _).
  vm_compute. reflexivity.
Defined.

(** X4. The users that get a score, and each user's [bugs_reported] and
    [bugs_fixed], do not depend on the order in which the tickets are
    read. *)
Theorem accumulate_counts_order (l1 l2 : list Ticket) (u : string) :
  l1 ≡ₚ l2 ->
  Score.user_name <$> accumulate l1 !! u = Score.user_name <$> accumulate l2 !! u
  /\ Score.bugs_reported <$> accumulate l1 !! u = Score.bugs_reported <$> accumulate l2 !! u
  /\ Score.bugs_fixed <$> accumulate l1 !! u = Score.bugs_fixed <$> accumulate l2 !! u.
Proof.
  intros Hp. rewrite !accumulate_lookup, (credited_Permutation u l1 l2 Hp).
  destruct (credited u l2); [|done]. simpl.
  repeat split; f_equal; by rewrite Hp.
Qed.

Lemma accumulate_counts_order_witness :
  Score.bugs_fixed <$>
    accumulate [processTicket "t0" Sample.ticketA; processTicket "t0" Sample.ticketB] !! "bob"
  = Score.bugs_fixed <$>
    accumulate [processTicket "t0" Sample.ticketB; processTicket "t0" Sample.ticketA] !! "bob".
Proof.
  apply (accumulate_counts_order
           [processTicket "t0" Sample.ticketA; processTicket "t0" Sample.ticketB]
           [processTicket "t0" Sample.ticketB; processTicket "t0" Sample.ticketA] "bob").
  apply perm_swap.
Defined.

(** ** Shape of the badge list *)

Section BadgeShape.

#[local] Ltac decide_closed := apply (bool_decide_unpack _); vm_compute; exact I.

#[local] Ltac reflect_tests :=
  repeat match goal with
    | H : (_ <=? _)%nat = true |- _ => apply Nat.leb_le in H
    | H : (_ <=? _)%nat = false |- _ => apply Nat.leb_gt in H
    | H : (_ <? _)%nat = true |- _ => apply Nat.ltb_lt in H
    | H : (_ <? _)%nat = false |- _ => apply Nat.ltb_ge in H
    | H : Qle_bool _ _ = true |- _ => apply Qle_bool_iff in H
    | H : Qle_bool _ _ = false |- _ => apply Qle_bool_false in H
    end.

(** X5. The badge list is never empty, holds no label twice and at most
    five labels; "Participant" only ever stands alone; either Slayer badge
    comes with "Speed Demon"; and a Hunter badge together with a Slayer
    badge comes with "All-Rounder". *)
Theorem calculateBadges_shape (user : Score.UserScore) :
  let badges := calculateBadges user in
  badges <> []
  /\ NoDup badges
  /\ length badges <= 5
  /\ (Label.participant ∈ badges -> badges = [Label.participant])
  /\ (Label.bug_slayer ∈ badges \/ Label.bug_slayer_supreme ∈ badges ->
      Label.speed_demon ∈ badges)
  /\ (Label.bug_hunter ∈ badges \/ Label.bug_hunter_elite ∈ badges ->
      Label.bug_slayer ∈ badges \/ Label.bug_slayer_supreme ∈ badges ->
      Label.all_rounder ∈ badges).
Proof.
  intros badges. subst badges. rewrite calculateBadges_tests.
  destruct (10 <=? Score.bugs_reported user)%nat eqn:E1,
    (5 <=? Score.bugs_reported user)%nat eqn:E2,
    (10 <=? Score.bugs_fixed user)%nat eqn:E3,
    (5 <=? Score.bugs_fixed user)%nat eqn:E4,
    (Qle_bool 100 (Score.total_points user)) eqn:E5,
    (Qle_bool 50 (Score.total_points user)) eqn:E6,
    (0 <? Score.bugs_reported user)%nat eqn:E7,
    (0 <? Score.bugs_fixed user)%nat eqn:E8,
    (3 <=? Score.bugs_fixed user)%nat eqn:E9.
  all: reflect_tests.
  all: try (exfalso; lia).
  all: clear.
  all: (set (l := badges_of_tests _ _ _ _ _ _ _ _ _); vm_compute in l; subst l).
  all: repeat split.
  all: try (intros H; discriminate H).
  all: try decide_closed.
  all: try (apply NoDup_cons; split; [decide_closed|]).
Qed.

End BadgeShape.

Lemma calculateBadges_shape_witness :
  Label.speed_demon ∈ calculateBadges (Sample.user_with 0 5 0)
  /\ Label.all_rounder ∈ calculateBadges (Sample.user_with 5 5 0).
Proof.
  split.
  - destruct (calculateBadges_shape (Sample.user_with 0 5 0)) as (_ & _ & _ & _ & Hspeed & _).
    apply Hspeed. left. apply (bool_decide_unpack _). vm_compute. exact I.
  - destruct (calculateBadges_shape (Sample.user_with 5 5 0)) as (_ & _ & _ & _ & _ & Hall).
    apply Hall; left; apply (bool_decide_unpack _); vm_compute; exact I.
Defined.

(** ** Bounds and fallbacks of the daily statistics *)

Section DailyBounds.

Lemma size_list_to_set_le (l : list string) :
  size (list_to_set (C := gset string) l) <= length l.
Proof.
  induction l as [|x l IH]; [by rewrite list_to_set_nil, size_empty|].
  rewrite list_to_set_cons, size_union_alt, size_singleton. simpl.
  assert (size (list_to_set l ∖ {[x]} : gset string) <= size (list_to_set l : gset string))
    by (apply subseteq_size, subseteq_difference_l; done).
  lia.
Qed.

Lemma size_list_to_set_pos (l : list string) :
  0 < length l -> 0 < size (list_to_set (C := gset string) l).
Proof.
  destruct l as [|x l]; [simpl; lia|]. intros _. rewrite list_to_set_cons.
  assert (size ({[x]} : gset string) <= size ({[x]} ∪ list_to_set l : gset string))
    by (apply subseteq_size, union_subseteq_l).
  rewrite size_singleton in *. lia.
Qed.

End DailyBounds.

(** X6. In every stat [updateDailyStats] builds, whatever the two reads
    answered, the active users are at most the created plus the fixed
    tickets and at least one when there is any ticket, and no fixed ticket
    means no points earned. *)
Theorem dailyStats_bounds (today : string) (todayTickets fixedToday : option (list Ticket)) :
  let stat := dailyStats today todayTickets fixedToday in
  Daily.active_users stat <= Daily.bugs_created stat + Daily.bugs_fixed stat
  /\ (0 < Daily.bugs_created stat + Daily.bugs_fixed stat -> 0 < Daily.active_users stat)
  /\ (Daily.bugs_fixed stat = 0 -> Daily.points_earned stat = 0%Q).
Proof.
  unfold dailyStats. simpl. split; [|split].
  - etrans; [apply size_list_to_set_le|]. rewrite length_app.
    destruct todayTickets, fixedToday; simpl; rewrite ?length_fmap; lia.
  - intros Hpos. apply size_list_to_set_pos. rewrite length_app.
    destruct todayTickets, fixedToday; simpl in *; rewrite ?length_fmap; lia.
  - destruct fixedToday as [[|t l]|]; simpl; [done|lia|done].
Qed.

Lemma dailyStats_bounds_witness :
  0 < Daily.active_users
        (dailyStats "2024-05-01" (Some [processTicket "t0" Sample.ticketA]) None)
  /\ Daily.points_earned
       (dailyStats "2024-05-01" (Some [processTicket "t0" Sample.ticketA]) None) = 0%Q.
Proof.
  destruct (dailyStats_bounds "2024-05-01" (Some [processTicket "t0" Sample.ticketA]) None)
    as (_ & Hpos & Hzero).
  split; [apply Hpos; simpl; lia|apply Hzero; reflexivity].
Defined.

(** X7. When the store fails both reads of [updateDailyStats] and then
    answers the upsert, the row of the current date is overwritten with
    zeros, whatever it held. *)
Theorem updateDailyStats_failed_reads (w : World) (e1 e2 : Error) rest :
  faults w = Some e1 :: Some e2 :: None :: rest ->
  let today := JS.split_first "T" (default "1970-01-01T00:00:00.000Z" (head (clock w))) in
  daily_stats (db (updateDailyStats w).2) !! today
  = Some {| Daily.date := today; Daily.bugs_created := 0; Daily.bugs_fixed := 0;
            Daily.points_earned := 0%Q; Daily.active_users := 0 |}.
Proof.
  intros Hf today.
  unfold updateDailyStats, bind, new_Date, supabase. simpl. rewrite Hf. simpl.
  unfold Table.upsert. simpl. fold today. by rewrite lookup_insert_eq.
Qed.

Lemma updateDailyStats_failed_reads_witness :
  let good := {| Daily.date := "2024-05-01"; Daily.bugs_created := 2;
                 Daily.bugs_fixed := 1; Daily.points_earned := 8%Q;
                 Daily.active_users := 3 |} in
  let w := Sample.world (Table.set_daily {[ "2024-05-01" := good ]} Sample.store1)
             (inr []) [Some Sample.boom; Some Sample.boom; None]
             ["2024-05-01T11:00:00.000Z"] in
  daily_stats (db w) !! "2024-05-01" = Some good
  /\ Daily.bugs_created <$> daily_stats (db (updateDailyStats w).2) !! "2024-05-01" = Some 0.
Proof.
  intros good w. split; [reflexivity|].
  exact (f_equal (fmap Daily.bugs_created)
           (updateDailyStats_failed_reads w Sample.boom Sample.boom [] eq_refl)).
Defined.

(** ** The rank labels of the dashboard *)

(** X8. [getRankEmoji] gives different ranks different labels. *)
Theorem getRankEmoji_distinct (a b : nat) :
  a <> b -> getRankEmoji a <> getRankEmoji b.
Proof.
  intros Hne Heq. apply Hne. clear Hne.
  assert (Hhash : forall n m : nat, "#" +:+ pretty n = "#" +:+ pretty m -> n = m).
  { intros n m H. injection H as H. by apply pretty_nat_inj in H. }
  unfold getRankEmoji in Heq.
  destruct a as [|[|[|[|a]]]], b as [|[|[|[|b]]]];
    try reflexivity; try discriminate Heq; by apply Hhash.
Qed.

Lemma getRankEmoji_distinct_witness : getRankEmoji 1 <> getRankEmoji 11.
Proof. apply getRankEmoji_distinct. lia. Defined.

(** ** The champion *)

Section Champion.

#[local] Instance by_points_desc_trans : Transitive Table.by_points_desc.
Proof.
  intros a b c Hab Hbc. unfold Table.by_points_desc in *.
  apply Is_true_true, Qle_bool_iff. apply Is_true_true, Qle_bool_iff in Hab, Hbc.
  by eapply Qle_trans.
Qed.

#[local] Instance by_points_desc_total : Total Table.by_points_desc.
Proof.
  intros a b. unfold Table.by_points_desc.
  destruct (Qlt_le_dec (Score.total_points a) (Score.total_points b)) as [Hlt|Hle].
  - right. apply Is_true_true, Qle_bool_iff. by apply Qlt_le_weak.
  - left. by apply Is_true_true, Qle_bool_iff.
Qed.

(** The first row of the ordered read has the most points. *)
Lemma ordered_first_is_top (rows : list Score.UserScore) first rest :
  merge_sort Table.by_points_desc rows = first :: rest ->
  first ∈ rows
  /\ forall other, other ∈ rows ->
       (Score.total_points other <= Score.total_points first)%Q.
Proof.
  intros Hsort.
  pose proof (merge_sort_Permutation Table.by_points_desc rows) as Hperm.
  pose proof (StronglySorted_merge_sort Table.by_points_desc rows) as Hsorted.
  rewrite Hsort in Hperm, Hsorted.
  apply StronglySorted_inv in Hsorted as [_ Hall].
  split; [rewrite <- Hperm; apply list_elem_of_here|].
  intros other Hin. rewrite <- Hperm in Hin.
  apply elem_of_cons in Hin as [->|Hin]; [apply Qle_refl|].
  rewrite Forall_forall in Hall. specialize (Hall other Hin).
  by apply Is_true_true, Qle_bool_iff in Hall.
Qed.

Lemma ordered_empty (m : gmap string Score.UserScore) :
  m = ∅ -> merge_sort Table.by_points_desc (Table.rows m) = [].
Proof. intros ->. unfold Table.rows. by rewrite map_to_list_empty. Qed.

(** What a run of [checkAchievements] does to the store. *)
Lemma checkAchievements_effect w :
  exists w',
    checkAchievements w = (Returned tt, w')
    /\ bugathon_tickets (db w') = bugathon_tickets (db w)
    /\ user_scores (db w') = user_scores (db w)
    /\ daily_stats (db w') = daily_stats (db w)
    /\ (achievements (db w') = achievements (db w)
        \/ exists first now,
             first ∈ Table.rows (user_scores (db w))
             /\ (forall other, other ∈ Table.rows (user_scores (db w)) ->
                   (Score.total_points other <= Score.total_points first)%Q)
             /\ achievements (db w') =
                achievements (db w) ++
                [granted (Score.user_name first) Label.current_champion
                   "Leading the bugathon!" now])
    /\ (user_scores (db w) = ∅ -> achievements (db w') = achievements (db w))
    /\ (faults w = [] -> user_scores (db w) <> ∅ ->
        exists first r,
          first ∈ Table.rows (user_scores (db w))
          /\ (forall other, other ∈ Table.rows (user_scores (db w)) ->
                (Score.total_points other <= Score.total_points first)%Q)
          /\ r ∈ achievements (db w')
          /\ Table.matches (Score.user_name first) Label.current_champion r = true).
Proof.
  unfold Label.current_champion.
  unfold checkAchievements, bind at 1. store_call Hf; simpl.
  { eexists. split; [reflexivity|]. simpl. repeat split; try done; [by left|].
    intros Hnil. by rewrite Hnil in Hf. }
  destruct (merge_sort _ _) as [|first rest] eqn:Hsort.
  { eexists. split; [reflexivity|]. simpl. repeat split; try done; [by left|].
    intros _ Hne. destruct Hne. apply map_to_list_empty_iff.
    unfold Table.rows in Hsort.
    pose proof (merge_sort_Permutation Table.by_points_desc
                  (map_to_list (user_scores (db w))).*2) as Hp.
    rewrite Hsort in Hp. symmetry in Hp. apply Permutation_nil_r in Hp.
    by apply fmap_nil_inv in Hp. }
  destruct (ordered_first_is_top _ _ _ Hsort) as [Hin Htop].
  match goal with
  | |- context [grantAchievement ?u ?b ?d ?w1] =>
      destruct (grantAchievement_effect u b d w1)
        as (w' & -> & Ht & Hs & Hd & Happ & Hfound & _ & _ & Hins)
  end.
  simpl in *. eexists. split; [reflexivity|].
  split; [done|]. split; [done|]. split; [done|]. split; [|split].
  - destruct Happ as [->|Happ]; [by left|]. right. exists first. eexists.
    split; [done|]. split; [done|]. exact Happ.
  - intros Hempty. by rewrite (ordered_empty _ Hempty) in Hsort.
  - intros Hnil _. exists first.
    destruct (filter (Table.matches (Score.user_name first) _)
                (achievements (db w))) as [|r [|r' l]] eqn:Hfilter.
    + eexists. split; [done|]. split; [done|].
      rewrite Hins; [|by rewrite Hnil|done].
      split; [apply elem_of_app; right; apply list_elem_of_here|].
      unfold Table.matches. simpl. by rewrite !String.eqb_refl.
    + exists r. split; [done|]. split; [done|].
      assert (Hr : r ∈ filter (Table.matches (Score.user_name first) _)
                     (achievements (db w))) by (rewrite Hfilter; apply list_elem_of_here).
      apply list_elem_of_filter in Hr as [Hm Hr].
      split; [|by apply Is_true_true].
      rewrite Hfound; [done| |by exists r].
      intros e. simpl. by rewrite Hnil.
    + exists r. split; [done|]. split; [done|].
      assert (Hr : r ∈ filter (Table.matches (Score.user_name first) _)
                     (achievements (db w))) by (rewrite Hfilter; apply list_elem_of_here).
      apply list_elem_of_filter in Hr as [Hm Hr].
      split; [|by apply Is_true_true].
      destruct Happ as [->| ->]; [done|]. apply elem_of_app. by left.
Qed.

End Champion.

(** X9. [checkAchievements] changes no table but [achievements].  It grants
    nothing when no user has a score.  A row it appends is the "Current
    Champion" of a user that no stored user exceeds in total points.  When
    the store answers and some user has a score, the achievements
    afterwards hold a "Current Champion" row of such a user. *)
Theorem checkAchievements_champion (w : World) :
  let w' := (checkAchievements w).2 in
  bugathon_tickets (db w') = bugathon_tickets (db w)
  /\ user_scores (db w') = user_scores (db w)
  /\ daily_stats (db w') = daily_stats (db w)
  /\ (achievements (db w') = achievements (db w)
      \/ exists first now,
           first ∈ Table.rows (user_scores (db w))
           /\ (forall other, other ∈ Table.rows (user_scores (db w)) ->
                 (Score.total_points other <= Score.total_points first)%Q)
           /\ achievements (db w') =
              achievements (db w) ++
              [granted (Score.user_name first) Label.current_champion
                 "Leading the bugathon!" now])
  /\ (user_scores (db w) = ∅ -> achievements (db w') = achievements (db w))
  /\ (faults w = [] -> user_scores (db w) <> ∅ ->
      exists first r,
        first ∈ Table.rows (user_scores (db w))
        /\ (forall other, other ∈ Table.rows (user_scores (db w)) ->
              (Score.total_points other <= Score.total_points first)%Q)
        /\ r ∈ achievements (db w')
        /\ Table.matches (Score.user_name first) Label.current_champion r = true).
Proof.
  intros w'. subst w'.
  destruct (checkAchievements_effect w) as (w' & -> & H). exact H.
Qed.

Lemma checkAchievements_champion_witness :
  achievements
    (db (checkAchievements (Sample.world Sample.empty_store (inr []) [] [])).2) = []
  /\ exists first r,
       first ∈ Table.rows (user_scores Sample.store1)
       /\ r ∈ achievements
                (db (checkAchievements (Sample.world Sample.store1 (inr []) [] [])).2)
       /\ Table.matches (Score.user_name first) Label.current_champion r = true.
Proof.
  split.
  - destruct (checkAchievements_champion (Sample.world Sample.empty_store (inr []) [] []))
      as (_ & _ & _ & _ & Hempty & _).
    apply Hempty. reflexivity.
  - destruct (checkAchievements_champion (Sample.world Sample.store1 (inr []) [] []))
      as (_ & _ & _ & _ & _ & Hgrant).
    destruct Hgrant as (first & r & Hin & _ & Hr & Hm); [reflexivity| |by exists first, r].
    intros Hempty. apply (f_equal (lookup "zoe")) in Hempty. vm_compute in Hempty.
    discriminate Hempty.
Defined.

(** ** What a sync never removes *)

Section Growth.

Lemma grows_refl st : grows st st.
Proof. by repeat split. Qed.

Lemma grows_trans st1 st2 st3 : grows st1 st2 -> grows st2 st3 -> grows st1 st3.
Proof.
  intros (H1 & H2 & H3 & H4) (H1' & H2' & H3' & H4').
  repeat split; by etrans.
Qed.

Lemma upsert_dom {V} (key_of : V -> string) rows (t : gmap string V) :
  dom t ⊆ dom (Table.upsert key_of rows t).
Proof.
  unfold Table.upsert. revert t. induction rows as [|r rows IH]; intros t; [done|].
  simpl. etrans; [|apply IH]. apply dom_insert_subseteq.
Qed.

Lemma processTickets_grows tickets w :
  exists o w', processTickets tickets w = (o, w') /\ grows (db w) (db w').
Proof.
  unfold processTickets, bind at 1.
  destruct (normalize_all_run tickets w) as (times & _ & ->).
  unfold bind at 1. store_call Hf; simpl.
  - eexists _, _. split; [reflexivity|]. apply grows_refl.
  - eexists _, _. split; [reflexivity|]. simpl.
    repeat split; try done. apply upsert_dom.
Qed.

Lemma updateUserScores_grows w :
  exists w', updateUserScores w = (Returned tt, w') /\ grows (db w) (db w').
Proof.
  destruct (updateUserScores_effect w) as (w' & Hrun & Ht & Hd & Ha & Hs & _).
  exists w'. split; [done|]. repeat split; rewrite ?Ht, ?Hd, ?Ha; try done.
  destruct Hs as [->|(rows & w1 & w2 & _ & ->)]; [done|apply upsert_dom].
Qed.

(** [updateDailyStats] writes one row or none. *)
Lemma updateDailyStats_grows w :
  exists w', updateDailyStats w = (Returned tt, w') /\ grows (db w) (db w').
Proof.
  unfold updateDailyStats, bind at 1, new_Date. simpl.
  unfold bind at 1. store_call Hf1; simpl;
    (unfold bind at 1; store_call Hf2; simpl);
    (unfold bind at 1; store_call Hf3; simpl).
  all: eexists; split; [reflexivity|]; simpl.
  all: split; [done|]; split; [done|]; split; [|done].
  all: first [done|apply dom_insert_subseteq].
Qed.

Lemma checkAchievements_grows w :
  exists w', checkAchievements w = (Returned tt, w') /\ grows (db w) (db w').
Proof.
  destruct (checkAchievements_effect w) as (w' & Hrun & Ht & Hs & Hd & Ha & _).
  exists w'. split; [done|]. repeat split; rewrite ?Ht, ?Hs, ?Hd; try done.
  destruct Ha as [->|(first & now & _ & _ & ->)]; [done|]. by apply prefix_app_r.
Qed.

End Growth.

(** X10. A sync removes nothing: whatever the ticket source and the store
    answer, every key of [bugathon_tickets], [user_scores] and
    [daily_stats] is still there afterwards, and the achievements stored
    before are the beginning of those stored after. *)
Theorem syncBugathonData_grows (w : World) :
  grows (db w) (db (syncBugathonData w).2).
Proof.
  unfold syncBugathonData, try_catch, bind at 1, fetchJiraTickets.
  destruct (jira w) as [e|tickets]; simpl; [apply grows_refl|].
  unfold bind at 1.
  destruct (processTickets_grows tickets (log JiraSearch w)) as (o & w2 & -> & H2).
  destruct o as [[]|e]; simpl; [|exact H2].
  unfold bind at 1.
  destruct (updateUserScores_grows w2) as (w3 & -> & H3).
  unfold bind at 1.
  destruct (updateDailyStats_grows w3) as (w4 & -> & H4).
  unfold bind at 1.
  destruct (checkAchievements_grows w4) as (w5 & -> & H5).
  simpl. eapply grows_trans; [exact H2|].
  eapply grows_trans; [exact H3|]. by eapply grows_trans.
Qed.

(** ** The sync route *)

(** X11. The sync route never answers with status 500: for every world it
    answers 200 with the result of the sync as its body, so that a failed
    sync, such as one whose ticket source fails, is a 200 whose body says
    [success: false]. *)
Theorem POST_status (w : World) :
  (exists result,
     syncBugathonData w = (Returned result, (Route.POST w).2)
     /\ (Route.POST w).1 =
        Returned {| Route.status := 200; Route.body := Route.SyncAnswer result |})
  /\ (forall e, jira w = inl e ->
        (Route.POST w).1 =
        Returned {| Route.status := 200;
                    Route.body := Route.SyncAnswer (Failure e) |}).
Proof.
  assert (Hret : exists result w', syncBugathonData w = (Returned result, w')).
  { unfold syncBugathonData, try_catch.
    destruct (bind _ _ w) as [[result|e] w']; by eexists _, _. }
  destruct Hret as (result & w' & Hrun).
  assert (HPOST : Route.POST w = (Returned (Route.json (Route.SyncAnswer result)), w')).
  { unfold Route.POST, try_catch, bind. by rewrite Hrun. }
  split.
  - exists result. by rewrite HPOST.
  - intros e He. rewrite HPOST. simpl. do 3 f_equal.
    unfold syncBugathonData, try_catch, bind at 1, fetchJiraTickets in Hrun.
    rewrite He in Hrun. by injection Hrun as <- _.
Qed.

Lemma POST_status_witness :
  (Route.POST (Sample.world Sample.empty_store (inl (AxiosError "timeout")) [] [])).1
  = Returned {| Route.status := 200;
                Route.body := Route.SyncAnswer (Failure (AxiosError "timeout")) |}.
Proof.
  destruct (POST_status (Sample.world Sample.empty_store (inl (AxiosError "timeout")) [] []))
    as [_ Hfail].
  apply Hfail. reflexivity.
Defined.

(** ** The stats route *)

Section StatsRoute.

Variable date_le : string -> string -> bool.

(** X12. The stats route only reads and always answers 200.  When the store
    fails its three reads the body is the empty series with the four team
    numbers zero.  When the store answers, the series has at most seven
    rows, each a row of [daily_stats], and all of them when there are at
    most seven; [activeUsers] is the number of rows of [user_scores],
    [totalBugs] the number of stored done tickets, and [todayFixed] the
    [bugs_fixed] of the first row of the series, or 0 without one. *)
Theorem GET_stats (w : World) :
  exists b,
    (Route.GET date_le w).1 = Returned {| Route.status := 200; Route.body := b |}
    /\ db (Route.GET date_le w).2 = db w
    /\ (forall e1 e2 e3 rest,
          faults w = Some e1 :: Some e2 :: Some e3 :: rest ->
          b = {| Route.daily := [];
                 Route.team := {| Route.totalBugs := 0; Route.totalPoints := 0%Q;
                                  Route.activeUsers := 0; Route.todayFixed := 0 |} |})
    /\ (faults w = [] ->
        length (Route.daily b) <= 7
        /\ (forall row, row ∈ Route.daily b -> row ∈ Table.rows (daily_stats (db w)))
        /\ (size (daily_stats (db w)) <= 7 ->
            Route.daily b ≡ₚ Table.rows (daily_stats (db w)))
        /\ Route.activeUsers (Route.team b) = size (user_scores (db w))
        /\ Route.totalBugs (Route.team b) =
             length (filter (fun t => String.eqb (status_category t) "done")
                       (Table.rows (bugathon_tickets (db w))))
        /\ Route.todayFixed (Route.team b) =
             match Route.daily b with
             | first :: _ => Daily.bugs_fixed first
             | [] => 0
             end).
Proof.
  unfold Route.GET, bind, supabase, ret, Route.json. simpl.
  destruct (faults w) as [|[e1|] [|[e2|] [|[e3|] rest]]] eqn:Hf; simpl.
  all: eexists; split; [reflexivity|]; simpl.
  all: split; [by destruct (db w)|].
  all: split; [intros ? ? ? ? Heq; try discriminate Heq; reflexivity|].
  all: intros Hnil; try discriminate Hnil.
  pose proof (merge_sort_Permutation (Route.by_date_desc date_le)
                (Table.rows (daily_stats (db w)))) as Hperm.
  assert (Hlen : length (Table.rows (daily_stats (db w))) = size (daily_stats (db w))).
  { unfold Table.rows. by rewrite length_fmap, length_map_to_list. }
  repeat split.
  - rewrite length_take. lia.
  - intros row Hrow. rewrite <- Hperm. eapply elem_of_sublist; [exact Hrow|].
    apply sublist_take.
  - intros Hsmall. rewrite take_ge; [done|]. by rewrite Hperm, Hlen.
  - unfold Table.rows. by rewrite length_fmap, length_map_to_list.
Qed.

End StatsRoute.

Lemma GET_stats_witness :
  exists b,
    (Route.GET String.leb
       (Sample.world Sample.store1 (inr [])
          [Some Sample.boom; Some Sample.boom; Some Sample.boom] [])).1
    = Returned {| Route.status := 200; Route.body := b |}
    /\ Route.totalBugs (Route.team b) = 0
    /\ Route.daily b = [].
Proof.
  destruct (GET_stats String.leb
              (Sample.world Sample.store1 (inr [])
                 [Some Sample.boom; Some Sample.boom; Some Sample.boom] []))
    as (b & Hrun & _ & Hfail & _).
  exists b. split; [exact Hrun|].
  by rewrite (Hfail Sample.boom Sample.boom Sample.boom [] eq_refl).
Defined.

(** ** The row of a granted achievement *)

Section GrantedRow.

Lemma split_first_spec sep s :
  exists rest,
    s = JS.split_first sep s +:+ rest
    /\ JS.includes (JS.split_first sep s) (String sep "") = false
    /\ (rest = "" \/ exists rest', rest = String sep rest').
Proof.
  induction s as [|c s (rest & Hs & Hno & Hrest)]; simpl.
  - exists "". split; [done|]. split; [done|]. by left.
  - destruct (Ascii.eqb_spec c sep) as [->|Hne].
    + exists (String sep s). split; [done|]. split; [done|]. right. by eexists.
    + exists rest. split; [|split; [|done]].
      * change (String c (JS.split_first sep s) +:+ rest)
          with (String c (JS.split_first sep s +:+ rest)). by rewrite <- Hs.
      * change (JS.includes (String c (JS.split_first sep s)) (String sep ""))
          with (String.prefix (String sep "") (String c (JS.split_first sep s))
                || JS.includes (JS.split_first sep s) (String sep "")).
        rewrite Hno, orb_false_r. simpl.
        destruct (Ascii.ascii_dec sep c) as [->|_]; done.
Qed.

End GrantedRow.

(** X13. A run of [grantAchievement] leaves the achievements as they are or
    appends one row: that of the given user, badge and description, stamped
    with the reading of the clock, whose icon is the badge up to its first
    space (the whole badge if it has none) and so holds no space. *)
Theorem grantAchievement_row (w : World) (userName badge description : string) :
  let w' := (grantAchievement userName badge description w).2 in
  achievements (db w') = achievements (db w)
  \/ exists r rest,
       achievements (db w') = achievements (db w) ++ [r]
       /\ Achievement.user_name r = userName
       /\ Achievement.badge_name r = badge
       /\ Achievement.description r = description
       /\ Achievement.earned_at r =
            default "1970-01-01T00:00:00.000Z" (head (clock w))
       /\ badge = Achievement.badge_icon r +:+ rest
       /\ JS.includes (Achievement.badge_icon r) " " = false
       /\ (rest = "" \/ exists rest', rest = String " " rest').
Proof.
  intros w'. subst w'.
  destruct (grantAchievement_effect userName badge description w)
    as (w' & -> & _ & _ & _ & [Hsame|Happ] & _); [by left|right].
  destruct (split_first_spec " " badge) as (rest & Hsplit & Hno & Hrest).
  eexists _, rest. split; [exact Happ|]. by repeat split.
Qed.

(** ** A whole sync on an answering store *)

(** X14. When the ticket source answers tickets with distinct keys and the
    store answers every call, the sync succeeds; afterwards every fetched
    ticket is stored as normalized and the stored tickets it did not fetch
    are as before; and every user credited by some stored ticket, fetched
    now or earlier, has a score row whose counters count that user's
    tickets among all stored ones, whose total is the sum of its two point
    fields and whose badges are those of its own counters. *)
Theorem sync_scores_stored_tickets (w : World) (tickets : list Jira.JiraTicket) :
  jira w = inr tickets -> faults w = [] -> NoDup (Jira.key <$> tickets) ->
  let w' := (syncBugathonData w).2 in
  let stored := Table.rows (bugathon_tickets (db w')) in
  (syncBugathonData w).1 = Returned (Success (length tickets))
  /\ (forall raw, raw ∈ tickets ->
        exists now,
          bugathon_tickets (db w') !! Jira.key raw = Some (processTicket now raw))
  /\ (forall k, k ∉ Jira.key <$> tickets ->
        bugathon_tickets (db w') !! k = bugathon_tickets (db w) !! k)
  /\ (forall u, credited u stored = true ->
        exists s,
          user_scores (db w') !! u = Some s
          /\ Score.user_name s = u
          /\ Score.bugs_reported s = length (filter (credits_reporter u) stored)
          /\ Score.bugs_fixed s = length (filter (credits_assignee u) stored)
          /\ Score.total_points s =
               (Score.reporter_points s + Score.assignee_points s)%Q
          /\ Score.badges s = Some (calculateBadges s)).
Proof.
  intros Hj Hf Hnd w' stored. subst stored w'.
  assert (Hans : answered (log JiraSearch w)) by (intros e; simpl; by rewrite Hf).
  destruct (processTickets_answered tickets (log JiraSearch w) Hans)
    as (times & w2 & _ & Hrun2 & _ & Hf2).
  destruct (processTickets_write tickets (log JiraSearch w) Hans Hnd)
    as (w2' & Hrun2' & Hstored & Hframe & _).
  rewrite Hrun2 in Hrun2'. injection Hrun2' as <-.
  simpl in Hf2. rewrite Hf in Hf2. simpl in Hf2.
  destruct (updateUserScores_effect w2) as (w3 & Hrun3 & Ht3 & _ & _ & _ & Hok).
  destruct (Hok Hf2) as (rows & wa & wb & Hrows & Hs3).
  destruct (updateDailyStats_effect w3) as (w4 & Hrun4 & _ & Ht4 & Hs4 & _).
  destruct (checkAchievements_effect w4) as (w5 & Hrun5 & Ht5 & Hs5 & _).
  assert (Hsync : syncBugathonData w = (Returned (Success (length tickets)), w5)).
  { unfold syncBugathonData, try_catch, bind at 1, fetchJiraTickets. rewrite Hj.
    unfold bind at 1. rewrite Hrun2. unfold bind at 1. rewrite Hrun3.
    unfold bind at 1. rewrite Hrun4. unfold bind at 1. by rewrite Hrun5. }
  rewrite Hsync. simpl. rewrite Ht5, Ht4, Ht3, Hs5, Hs4, Hs3.
  split; [done|]. split; [exact Hstored|]. split; [exact Hframe|].
  intros u Hu.
  destruct (scoresArray_rows _ _ _ _ Hrows) as (Hdistinct & Hnames & Hrow).
  apply Hnames in Hu. apply list_elem_of_fmap in Hu as (row & -> & Hin).
  destruct (Hrow row Hin) as (_ & now & Heq).
  exists row. split; [by apply upsert_lookup|].
  remember (Score.user_name row) as u eqn:Hu. rewrite Heq. by rewrite Hu at 1.
Qed.

Lemma sync_scores_stored_tickets_witness :
  let w := Sample.world Sample.store1 (inr [Sample.ticketD]) [] [] in
  (syncBugathonData w).1 = Returned (Success 1)
  /\ exists s,
       user_scores (db (syncBugathonData w).2) !! "bob" = Some s
       /\ Score.bugs_fixed s = 1.
Proof.
  intros w.
  destruct (sync_scores_stored_tickets w [Sample.ticketD] eq_refl eq_refl)
    as (Hok & _ & _ & Hscore).
  { apply (bool_decide_unpack _). vm_compute. exact I. }
  split; [exact Hok|].
  destruct (Hscore "bob") as (s & Hs & _ & _ & Hfixed & _).
  { vm_compute. reflexivity. }
  exists s. split; [exact Hs|]. rewrite Hfixed. vm_compute. reflexivity.
Defined.
